(** * The example navigation screens of react-native-navigation-sdk

    A shallow embedding of the two example screens

      - [src/example/src/NavigationScreen.tsx]  (module [NavigationScreen])
      - [src/unnamed/part_000]                  (module [Part000])

    Both files define one React component, [NavigationScreen]: six pieces of
    [useState] state, a set of handlers created with [useCallback], two
    effects, and a render function.  Each handler is embedded as a program of
    a small monad [M] that threads the component state and the chronological
    trace of observable effects (console output, snackbars, SDK calls), and in
    which an awaited SDK call may throw. *)

From Stdlib Require Import Bool List String ZArith QArith Lia.
Import ListNotations.
Open Scope string_scope.

(** ** Data *)

(** [enum OverlayType { None, NavControls, MapControls }] *)
Module OverlayType.
Inductive t : Set := None | NavControls | MapControls.

Definition eqb (a b : t) : bool :=
  match a, b with
  | None, None | NavControls, NavControls | MapControls, MapControls => true
  | _, _ => false
  end.

End OverlayType.

(** [const marginAmount = 50;] *)
Definition marginAmount : Z := 50.

(** Controller objects are opaque SDK objects; only their identity matters. *)
Definition MapViewController := nat.
Definition NavigationViewController := nat.
Definition NavigationController := nat.

(** The identity of a callback table (a JS object). *)
Definition NavigationCallbacks := nat.

Record LatLng := { lat : Q; lng : Q }.

Record CameraPosition := {
  target : LatLng;
  zoom : Z;
  bearing : Z;
  tilt : option Z            (* absent in part_000 *)
}.

Record Waypoint := { position : LatLng }.

Record RoutingOptions := {
  travelMode : Z;
  alternateRoutesStrategy : Z;
  avoidFerries : bool;
  avoidTolls : bool
}.

Record MarkerOptions := { markerPosition : LatLng; visible : bool }.

Record ArrivalEvent := { isFinalDestination : bool }.

(** Modelled from the spec: the declaration of [RouteStatus], which the
    screens import from the SDK package and which is not among the sources.
    [OK] and the five failure codes are the members the spec lists and the
    screens name in [onRouteStatusResult]; [OTHER] stands for every further
    value the switch receives in its [default:] branch, carrying the text
    that [console.log] prints for it. *)
Inductive RouteStatus :=
| OK
| ROUTE_CANCELED
| NO_ROUTE_FOUND
| NETWORK_ERROR
| LOCATION_DISABLED
| LOCATION_UNKNOWN
| OTHER (name : string).

(** Modelled from the spec: [NavigationInitErrorCode], imported from the SDK
    package as well.  The screens only interpolate it into a template
    string, so an error code is kept as the text it is rendered to. *)
Definition NavigationInitErrorCode := string.

(** [Snackbar.LENGTH_SHORT] and its siblings. *)
Inductive SnackbarDuration := LENGTH_SHORT | LENGTH_LONG | LENGTH_INDEFINITE.

(** ** Component state: the six [useState] cells *)

Record State := {
  overlayType : OverlayType.t;
  mapViewController : option MapViewController;
  navigationViewController : option NavigationViewController;
  navigationInitialized : bool;
  displayMap : bool;
  margin : option Z
}.

(** The initial values given to [useState]. *)
Definition initialState : State := {|
  overlayType := OverlayType.None;
  mapViewController := None;
  navigationViewController := None;
  navigationInitialized := false;
  displayMap := false;
  margin := None
|}.

(** Values the component obtains from hooks other than [useState]:
    [usePermissions()] and [useNavigationSDK()].  The navigation controller
    has a non-nullable type. *)
Record Hooks := {
  arePermissionsApproved : bool;
  navigationController : NavigationController
}.

(** ** Observable effects *)

Inductive MapMethod :=
| clearMapView
| moveCamera (cameraPosition : CameraPosition)
| addMarker (options : MarkerOptions)
| setMyLocationEnabled (enabled : bool)
| removePolygon (id : string)
| removeCircle (id : string)
| removePolyline (id : string).

Inductive NavViewMethod :=
| setNavigationUIEnabled (enabled : bool)
| showRouteOverview.

Inductive NavMethod :=
| init
| cleanup
| clearDestinations
| setDestinations (destinations : list Waypoint) (routingOptions : option RoutingOptions)
| startGuidance
| stopGuidance
| continueToNextDestination
| getCurrentTimeAndDistance.

(** A call of an SDK method on its receiver. *)
Inductive SdkCall :=
| MapCall (c : MapViewController) (m : MapMethod)
| NavViewCall (c : NavigationViewController) (m : NavViewMethod)
| NavCall (c : NavigationController) (m : NavMethod)
| addListeners (callbacks : NavigationCallbacks)
| removeListeners (callbacks : NavigationCallbacks).

(** Console output keeps the leading text only; objects passed as further
    arguments are not part of the model. *)
Inductive Effect :=
| ConsoleLog (text : string)
| ConsoleError (text : string)
| SnackbarShow (text : string) (duration : SnackbarDuration)
| Sdk (call : SdkCall).

(** ** The handler monad *)

(** The error a failing SDK call throws. *)
Inductive Exn := SdkError (call : SdkCall).

Inductive Result (A : Type) :=
| Returned (a : A)
| Threw (e : Exn).
Arguments Returned {A} a.
Arguments Threw {A} e.

Record World := { state : State; trace : list Effect }.

(** Which awaited SDK calls fail is decided outside the screen: an oracle
    receives the trace so far and the call, and answers [true] when the call
    throws (or its promise rejects). *)
Definition Oracle := list Effect -> SdkCall -> bool.

Definition neverFails : Oracle := fun _ _ => false.

Definition M (A : Type) := Oracle -> World -> Result A * World.

Definition ret {A} (a : A) : M A := fun _ w => (Returned a, w).

Definition bind {A B} (m : M A) (k : A -> M B) : M B :=
  fun fails w =>
    match m fails w with
    | (Returned a, w') => k a fails w'
    | (Threw e, w') => (Threw e, w')
    end.

Declare Scope handler_scope.
Delimit Scope handler_scope with handler.
Notation "m1 ;; m2" := (bind m1 (fun _ => m2))
  (at level 61, right associativity) : handler_scope.
Open Scope handler_scope.

Definition emit (e : Effect) : M unit :=
  fun _ w => (Returned tt, {| state := state w; trace := trace w ++ [e] |}).

Definition modify (f : State -> State) : M unit :=
  fun _ w => (Returned tt, {| state := f (state w); trace := trace w |}).

(** [await receiver.method(...)]: the call is made; its failure is thrown
    into the caller. *)
Definition awaitSdk (c : SdkCall) : M unit :=
  fun fails w =>
    let w' := {| state := state w; trace := trace w ++ [Sdk c] |} in
    if fails (trace w) c then (Threw (SdkError c), w') else (Returned tt, w').

(** [receiver.method(...)] without [await]: the call is made and the caller
    goes on; a rejection of the returned promise never reaches the caller. *)
Definition callSdk (c : SdkCall) : M unit := emit (Sdk c).

(** [try { body } catch (error) { handler }] *)
Definition tryCatch {A} (body : M A) (handler : Exn -> M A) : M A :=
  fun fails w =>
    match body fails w with
    | (Returned a, w') => (Returned a, w')
    | (Threw e, w') => handler e fails w'
    end.

(** An [async] function called without [await]: its effects happen, the
    rejection of its promise is dropped. *)
Definition notAwaited (m : M unit) : M unit :=
  fun fails w =>
    match m fails w with
    | (_, w') => (Returned tt, w')
    end.

Definition consoleLog (text : string) : M unit := emit (ConsoleLog text).
Definition consoleError (text : string) : M unit := emit (ConsoleError text).

(** [const showSnackbar = (text, duration = Snackbar.LENGTH_SHORT) =>
       Snackbar.show({ text, duration })] *)
Definition showSnackbar (text : string) : M unit :=
  emit (SnackbarShow text LENGTH_SHORT).

(** The [useState] setters. *)
Definition setOverlayType (v : OverlayType.t) : M unit :=
  modify (fun s => {| overlayType := v;
                      mapViewController := mapViewController s;
                      navigationViewController := navigationViewController s;
                      navigationInitialized := navigationInitialized s;
                      displayMap := displayMap s;
                      margin := margin s |}).

Definition setMapViewController (v : option MapViewController) : M unit :=
  modify (fun s => {| overlayType := overlayType s;
                      mapViewController := v;
                      navigationViewController := navigationViewController s;
                      navigationInitialized := navigationInitialized s;
                      displayMap := displayMap s;
                      margin := margin s |}).

Definition setNavigationViewController (v : option NavigationViewController) : M unit :=
  modify (fun s => {| overlayType := overlayType s;
                      mapViewController := mapViewController s;
                      navigationViewController := v;
                      navigationInitialized := navigationInitialized s;
                      displayMap := displayMap s;
                      margin := margin s |}).

Definition setNavigationInitialized (v : bool) : M unit :=
  modify (fun s => {| overlayType := overlayType s;
                      mapViewController := mapViewController s;
                      navigationViewController := navigationViewController s;
                      navigationInitialized := v;
                      displayMap := displayMap s;
                      margin := margin s |}).

Definition setDisplayMap (v : bool) : M unit :=
  modify (fun s => {| overlayType := overlayType s;
                      mapViewController := mapViewController s;
                      navigationViewController := navigationViewController s;
                      navigationInitialized := navigationInitialized s;
                      displayMap := v;
                      margin := margin s |}).

Definition setMargin (v : option Z) : M unit :=
  modify (fun s => {| overlayType := overlayType s;
                      mapViewController := mapViewController s;
                      navigationViewController := navigationViewController s;
                      navigationInitialized := navigationInitialized s;
                      displayMap := displayMap s;
                      margin := v |}).

(** JavaScript truthiness of a [number | null]: [null] and [0] are falsy. *)
Definition truthy (m : option Z) : bool :=
  match m with
  | None => false
  | Some n => negb (Z.eqb n 0)
  end.

(** [x != null] *)
Definition notNull {A} (x : option A) : bool :=
  match x with Some _ => true | None => false end.

(** The text JavaScript concatenates for a route status in
    ['routeStatus: ' + routeStatus]. *)
Definition RouteStatus_text (r : RouteStatus) : string :=
  match r with
  | OK => "OK"
  | ROUTE_CANCELED => "ROUTE_CANCELED"
  | NO_ROUTE_FOUND => "NO_ROUTE_FOUND"
  | NETWORK_ERROR => "NETWORK_ERROR"
  | LOCATION_DISABLED => "LOCATION_DISABLED"
  | LOCATION_UNKNOWN => "LOCATION_UNKNOWN"
  | OTHER name => name
  end.

(** ** Events the component reacts to *)

Inductive Event :=
(* react-navigation *)
| Focus
| Blur
(* NavigationView props *)
| MapViewControllerCreated (c : MapViewController)
| NavigationViewControllerCreated (c : NavigationViewController)
| RecenterButtonClick
(* navigationCallbacks *)
| RouteChanged
| Arrival (event : ArrivalEvent)
| NavigationReady
| NavigationInitError (errorCode : NavigationInitErrorCode)
| LocationChanged
| RawLocationChanged
| TrafficUpdated
| RouteStatusResult (routeStatus : RouteStatus)
| StartGuidance
| RemainingTimeOrDistanceChanged
| TurnByTurn
(* mapViewCallbacks *)
| MapReady
| MarkerClick
| PolygonClick (id : string)
| CircleClick (id : string)
| PolylineClick (id : string)
| MarkerInfoWindowTapped
| MapClick
(* NavigationControls child *)
| NavigationDispose
(* buttons, switch and overlay *)
| ShowNavControlsClick
| ShowMapsControlsClick
| CloseOverlay
| MarginSwitch.

(** ** [src/example/src/NavigationScreen.tsx]

    Every handler closes over the hook values [h] and the state [s] of the
    render that created it; what it reads comes from that closure, what it
    writes goes to the component state through the setters. *)
Module NavigationScreen.

Definition onRouteChanged : M unit := showSnackbar "Route Changed".

Definition cleanUpNavigation (h : Hooks) (s : State) : M unit :=
  match mapViewController s with
  | Some mvc => callSdk (MapCall mvc clearMapView)
  | None => ret tt
  end ;;
  awaitSdk (NavCall (navigationController h) clearDestinations) ;;
  awaitSdk (NavCall (navigationController h) cleanup).

Definition startingSpot : CameraPosition :=
  {| target := {| lat := 32.8271135; lng := -96.830288 |};
     zoom := 10;
     bearing := 0;
     tilt := Some 0%Z |}.

Definition moveCameraToStartingSpot (s : State) : M unit :=
  consoleLog "Ryan - moveCameraToStartingSpot" ;;
  match mapViewController s with
  | Some mvc =>
      consoleLog "Ryan - moveCameraToStartingSpot - mapViewController" ;;
      tryCatch
        (awaitSdk (MapCall mvc (moveCamera startingSpot)))
        (fun error =>
           consoleError "Error moving camera" ;;
           showSnackbar "Error moving camera")
  | None => ret tt
  end.

(** The callback given to [useFocusEffect]. *)
Definition onFocus : M unit := setDisplayMap true.

(** The listener that callback registers for ['blur']. *)
Definition onBlur (h : Hooks) (s : State) : M unit :=
  setDisplayMap false ;;
  cleanUpNavigation h s.

Definition onArrival (h : Hooks) (event : ArrivalEvent) : M unit :=
  (if isFinalDestination event then
     consoleLog "Final destination reached" ;;
     callSdk (NavCall (navigationController h) stopGuidance)
   else
     consoleLog "Continuing to the next destination" ;;
     callSdk (NavCall (navigationController h) continueToNextDestination) ;;
     callSdk (NavCall (navigationController h) startGuidance)) ;;
  showSnackbar "Arrived".

Definition onTrafficUpdated : M unit := showSnackbar "Traffic Updated".

Fixpoint createWayPoints (s : State) (wayPoints : list LatLng) : M unit :=
  match wayPoints with
  | [] => ret tt
  | wayPoint :: rest =>
      match mapViewController s with
      | Some mvc =>
          awaitSdk (MapCall mvc (addMarker {| markerPosition := wayPoint;
                                              visible := true |}))
      | None => ret tt
      end ;;
      createWayPoints s rest
  end.

Definition wayPoints : list LatLng :=
  [ {| lat := 32.78889; lng := -96.906553 |};
    {| lat := 32.7215158; lng := -96.8094594 |};
    {| lat := 32.709446; lng := -96.746567 |};
    {| lat := 32.842525; lng := -96.810209 |};
    {| lat := 32.770895; lng := -96.697785 |};
    {| lat := 32.793867; lng := -96.767341 |};
    {| lat := 32.854362; lng := -96.744946 |};
    {| lat := 32.845018; lng := -96.808388 |};
    {| lat := 32.925; lng := -96.846349 |};
    {| lat := 32.901702; lng := -96.982005 |};
    {| lat := 32.778306; lng := -96.697305 |};
    {| lat := 32.7449539; lng := -96.8513408 |};
    {| lat := 32.7852848; lng := -96.8186504 |} ].

Definition routingOptions : RoutingOptions :=
  {| travelMode := 0;
     alternateRoutesStrategy := 1;
     avoidFerries := true;
     avoidTolls := false |}.

Definition onNavigationReady (h : Hooks) (s : State) : M unit :=
  consoleLog "onNavigationReady" ;;
  setNavigationInitialized true ;;
  moveCameraToStartingSpot s ;;
  let destinations :=
    map (fun wayPoint => {| position := {| lat := lat wayPoint;
                                            lng := lng wayPoint |} |})
        wayPoints in
  tryCatch
    (awaitSdk (NavCall (navigationController h)
                       (setDestinations destinations (Some routingOptions))))
    (fun error =>
       consoleError "Error setting destinations" ;;
       showSnackbar "Error setting destinations") ;;
  createWayPoints s wayPoints.

Definition onNavigationDispose (s : State) : M unit :=
  match navigationViewController s with
  | Some nvc => awaitSdk (NavViewCall nvc (setNavigationUIEnabled false))
  | None => ret tt
  end ;;
  setNavigationInitialized false.

Definition onNavigationInitError (errorCode : NavigationInitErrorCode) : M unit :=
  showSnackbar ("Failed to initialize navigation errorCode: " ++ errorCode).

Definition onStartGuidance : M unit := showSnackbar "Start Guidance".

Definition onRouteStatusOk (s : State) : M unit :=
  showSnackbar "Route created" ;;
  moveCameraToStartingSpot s.

Definition onRouteCancelled : M unit := showSnackbar "Error: Route Cancelled".
Definition onNoRouteFound : M unit := showSnackbar "Error: No Route Found".
Definition onNetworkError : M unit := showSnackbar "Error: Network Error".
Definition onStartingGuidanceError : M unit :=
  showSnackbar "Error: Starting Guidance Error".
Definition onLocationDisabled : M unit := showSnackbar "Error: Location Disabled".
Definition onLocationUnknown : M unit := showSnackbar "Error: Location Unknown".

Definition onLocationChanged : M unit := consoleLog "onLocationChanged:".
Definition onRawLocationChanged : M unit := consoleLog "onRawLocationChanged:".
Definition onTurnByTurn : M unit := consoleLog "onTurnByTurn:".

(* [console.log(currentTimeAndDistance)] prints an object only; the log entry
   carries the name of the variable. *)
Definition onRemainingTimeOrDistanceChanged (h : Hooks) : M unit :=
  (if notNull (Some (navigationController h)) then
     awaitSdk (NavCall (navigationController h) getCurrentTimeAndDistance) ;;
     consoleLog "currentTimeAndDistance"
   else ret tt) ;;
  consoleLog "called onRemainingTimeOrDistanceChanged".

Definition onRouteStatusResult (s : State) (routeStatus : RouteStatus) : M unit :=
  match routeStatus with
  | OK => notAwaited (onRouteStatusOk s)
  | ROUTE_CANCELED => onRouteCancelled
  | NO_ROUTE_FOUND => onNoRouteFound
  | NETWORK_ERROR => onNetworkError
  | LOCATION_DISABLED => onLocationDisabled
  | LOCATION_UNKNOWN => onLocationUnknown
  | _ =>
      consoleLog ("routeStatus: " ++ RouteStatus_text routeStatus) ;;
      onStartingGuidanceError
  end.

(** The effect that registers the callback table, returning its cleanup:
    [useEffect(() => { addListeners(navigationCallbacks);
                       return () => { removeListeners(navigationCallbacks); }; },
               [navigationCallbacks, addListeners, removeListeners])] *)
Definition listenersEffect (navigationCallbacks : NavigationCallbacks)
  : M (M unit) :=
  callSdk (addListeners navigationCallbacks) ;;
  ret (callSdk (removeListeners navigationCallbacks)).

Definition onMapReady (h : Hooks) (s : State) : M unit :=
  consoleLog "Map is ready, initializing navigator..." ;;
  tryCatch
    (awaitSdk (NavCall (navigationController h) init) ;;
     match mapViewController s with
     | Some mvc => callSdk (MapCall mvc (setMyLocationEnabled true))
     | None => ret tt
     end)
    (fun error =>
       consoleError "Error initializing navigator" ;;
       showSnackbar "Error initializing navigator").

Definition onRecenterButtonClick (s : State) : M unit :=
  consoleLog "onRecenterButtonClick" ;;
  moveCameraToStartingSpot s.

Definition onShowNavControlsClick : M unit :=
  setOverlayType OverlayType.NavControls.

Definition onShowMapsControlsClick : M unit :=
  setOverlayType OverlayType.MapControls.

(** The members of [mapViewCallbacks] other than [onMapReady]. *)
Definition onMarkerClick : M unit := consoleLog "onMarkerClick:".

Definition onPolygonClick (s : State) (id : string) : M unit :=
  consoleLog "onPolygonClick:" ;;
  match mapViewController s with
  | Some mvc => callSdk (MapCall mvc (removePolygon id))
  | None => ret tt
  end.

Definition onCircleClick (s : State) (id : string) : M unit :=
  consoleLog "onCircleClick:" ;;
  match mapViewController s with
  | Some mvc => callSdk (MapCall mvc (removeCircle id))
  | None => ret tt
  end.

Definition onPolylineClick (s : State) (id : string) : M unit :=
  consoleLog "onPolylineClick:" ;;
  match mapViewController s with
  | Some mvc => callSdk (MapCall mvc (removePolyline id))
  | None => ret tt
  end.

Definition onMarkerInfoWindowTapped : M unit :=
  consoleLog "onMarkerInfoWindowTapped:".

Definition onMapClick : M unit := consoleLog "onMapClick:".

Definition closeOverlay : M unit := setOverlayType OverlayType.None.

(** [onValueChange] of the margin switch. *)
Definition onValueChange (s : State) : M unit :=
  setMargin (if truthy (margin s) then None else Some marginAmount).

(** Which handler the component has wired to which event. *)
Definition handle (h : Hooks) (s : State) (e : Event) : M unit :=
  match e with
  | Focus => onFocus
  | Blur => onBlur h s
  | MapViewControllerCreated c => setMapViewController (Some c)
  | NavigationViewControllerCreated c => setNavigationViewController (Some c)
  | RecenterButtonClick => onRecenterButtonClick s
  | RouteChanged => onRouteChanged
  | Arrival event => onArrival h event
  | NavigationReady => onNavigationReady h s
  | NavigationInitError errorCode => onNavigationInitError errorCode
  | LocationChanged => onLocationChanged
  | RawLocationChanged => onRawLocationChanged
  | TrafficUpdated => onTrafficUpdated
  | RouteStatusResult routeStatus => onRouteStatusResult s routeStatus
  | StartGuidance => onStartGuidance
  | RemainingTimeOrDistanceChanged => onRemainingTimeOrDistanceChanged h
  | TurnByTurn => onTurnByTurn
  | MapReady => onMapReady h s
  | MarkerClick => onMarkerClick
  | PolygonClick id => onPolygonClick s id
  | CircleClick id => onCircleClick s id
  | PolylineClick id => onPolylineClick s id
  | MarkerInfoWindowTapped => onMarkerInfoWindowTapped
  | MapClick => onMapClick
  | NavigationDispose => onNavigationDispose s
  | ShowNavControlsClick => onShowNavControlsClick
  | ShowMapsControlsClick => onShowMapsControlsClick
  | CloseOverlay => closeOverlay
  | MarginSwitch => onValueChange s
  end.

(** *** Render *)

(** [arePermissionsApproved && displayMap ? <View>...</View> : <Fragment/>] *)
Definition rendersView (h : Hooks) (s : State) : bool :=
  arePermissionsApproved h && displayMap s.

(** The first [OverlayModal] is part of the view under
    [navigationViewController != null && navigationController != null &&
     navigationInitialized]. *)
Definition navControlsOverlayRendered (h : Hooks) (s : State) : bool :=
  rendersView h s &&
  (notNull (navigationViewController s) &&
   notNull (Some (navigationController h)) &&
   navigationInitialized s).

(** Its [visible] prop. *)
Definition navControlsOverlayVisible (h : Hooks) (s : State) : bool :=
  navControlsOverlayRendered h s &&
  OverlayType.eqb (overlayType s) OverlayType.NavControls.

(** The second [OverlayModal], under [mapViewController != null]. *)
Definition mapControlsOverlayRendered (h : Hooks) (s : State) : bool :=
  rendersView h s && notNull (mapViewController s).

Definition mapControlsOverlayVisible (h : Hooks) (s : State) : bool :=
  mapControlsOverlayRendered h s &&
  OverlayType.eqb (overlayType s) OverlayType.MapControls.

(** [disabled={!navigationInitialized}] of the Navigation button. *)
Definition navigationButtonDisabled (s : State) : bool :=
  negb (navigationInitialized s).

(** [value={!!margin}] of the switch. *)
Definition switchValue (s : State) : bool := truthy (margin s).

(** [margin: margin] in the style of the [NavigationView]. *)
Definition viewMargin (s : State) : option Z := margin s.

End NavigationScreen.

(** ** [src/unnamed/part_000]

    The second screen, embedded from its own text in the same way. *)
Module Part000.

Definition onRouteChanged : M unit := showSnackbar "Route Changed".

Definition cleanUpNavigation (h : Hooks) (s : State) : M unit :=
  match mapViewController s with
  | Some mvc => callSdk (MapCall mvc clearMapView)
  | None => ret tt
  end ;;
  awaitSdk (NavCall (navigationController h) clearDestinations) ;;
  awaitSdk (NavCall (navigationController h) cleanup).

Definition startingSpot : CameraPosition :=
  {| target := {| lat := 42.060047; lng := -87.824613 |};
     zoom := 10;
     bearing := 0;
     tilt := None |}.

(** No [try]/[catch] here: a failing [moveCamera] is thrown to the caller. *)
Definition moveCameraToStartingSpot (s : State) : M unit :=
  match mapViewController s with
  | Some mvc => awaitSdk (MapCall mvc (moveCamera startingSpot))
  | None => ret tt
  end.

Definition onFocus : M unit := setDisplayMap true.

Definition onBlur (h : Hooks) (s : State) : M unit :=
  setDisplayMap false ;;
  cleanUpNavigation h s.

Definition onArrival (h : Hooks) (event : ArrivalEvent) : M unit :=
  (if isFinalDestination event then
     consoleLog "Final destination reached" ;;
     callSdk (NavCall (navigationController h) stopGuidance)
   else
     consoleLog "Continuing to the next destination" ;;
     callSdk (NavCall (navigationController h) continueToNextDestination) ;;
     callSdk (NavCall (navigationController h) startGuidance)) ;;
  showSnackbar "Arrived".

Definition onTrafficUpdated : M unit := showSnackbar "Traffic Updated".

Fixpoint createWayPoints (s : State) (wayPoints : list LatLng) : M unit :=
  match wayPoints with
  | [] => ret tt
  | wayPoint :: rest =>
      match mapViewController s with
      | Some mvc =>
          awaitSdk (MapCall mvc (addMarker {| markerPosition := wayPoint;
                                              visible := true |}))
      | None => ret tt
      end ;;
      createWayPoints s rest
  end.

Definition wayPoints : list LatLng :=
  [ {| lat := 42.02265096971242; lng := -87.88297802209854 |};
    {| lat := 42.02367115228353; lng := -87.78227012604475 |};
    {| lat := 42.100817565947494; lng := -87.86787182092667 |} ].

(** [setDestinations] is called with the destinations only, outside any
    [try] and without [await]. *)
Definition onNavigationReady (h : Hooks) (s : State) : M unit :=
  consoleLog "onNavigationReady" ;;
  setNavigationInitialized true ;;
  moveCameraToStartingSpot s ;;
  let destinations :=
    map (fun wayPoint => {| position := {| lat := lat wayPoint;
                                            lng := lng wayPoint |} |})
        wayPoints in
  callSdk (NavCall (navigationController h) (setDestinations destinations None)) ;;
  createWayPoints s wayPoints ;;
  match navigationViewController s with
  | Some nvc => awaitSdk (NavViewCall nvc showRouteOverview)
  | None => ret tt
  end.

Definition onNavigationDispose (s : State) : M unit :=
  match navigationViewController s with
  | Some nvc => awaitSdk (NavViewCall nvc (setNavigationUIEnabled false))
  | None => ret tt
  end ;;
  setNavigationInitialized false.

Definition onNavigationInitError (errorCode : NavigationInitErrorCode) : M unit :=
  showSnackbar ("Failed to initialize navigation errorCode: " ++ errorCode).

Definition onStartGuidance : M unit := showSnackbar "Start Guidance".

Definition onRouteStatusOk : M unit := showSnackbar "Route created".

Definition onRouteCancelled : M unit := showSnackbar "Error: Route Cancelled".
Definition onNoRouteFound : M unit := showSnackbar "Error: No Route Found".
Definition onNetworkError : M unit := showSnackbar "Error: Network Error".
Definition onStartingGuidanceError : M unit :=
  showSnackbar "Error: Starting Guidance Error".
Definition onLocationDisabled : M unit := showSnackbar "Error: Location Disabled".
Definition onLocationUnknown : M unit := showSnackbar "Error: Location Unknown".

Definition onLocationChanged : M unit := consoleLog "onLocationChanged:".
Definition onRawLocationChanged : M unit := consoleLog "onRawLocationChanged:".
Definition onTurnByTurn : M unit := consoleLog "onTurnByTurn:".

(* [console.log(currentTimeAndDistance)] prints an object only; the log entry
   carries the name of the variable. *)
Definition onRemainingTimeOrDistanceChanged (h : Hooks) : M unit :=
  (if notNull (Some (navigationController h)) then
     awaitSdk (NavCall (navigationController h) getCurrentTimeAndDistance) ;;
     consoleLog "currentTimeAndDistance"
   else ret tt) ;;
  consoleLog "called onRemainingTimeOrDistanceChanged".

Definition onRouteStatusResult (routeStatus : RouteStatus) : M unit :=
  match routeStatus with
  | OK => onRouteStatusOk
  | ROUTE_CANCELED => onRouteCancelled
  | NO_ROUTE_FOUND => onNoRouteFound
  | NETWORK_ERROR => onNetworkError
  | LOCATION_DISABLED => onLocationDisabled
  | LOCATION_UNKNOWN => onLocationUnknown
  | _ =>
      consoleLog ("routeStatus: " ++ RouteStatus_text routeStatus) ;;
      onStartingGuidanceError
  end.

Definition listenersEffect (navigationCallbacks : NavigationCallbacks)
  : M (M unit) :=
  callSdk (addListeners navigationCallbacks) ;;
  ret (callSdk (removeListeners navigationCallbacks)).

Definition onMapReady (h : Hooks) (s : State) : M unit :=
  consoleLog "Map is ready, initializing navigator..." ;;
  tryCatch
    (awaitSdk (NavCall (navigationController h) init) ;;
     match mapViewController s with
     | Some mvc => callSdk (MapCall mvc (setMyLocationEnabled true))
     | None => ret tt
     end)
    (fun error =>
       consoleError "Error initializing navigator" ;;
       showSnackbar "Error initializing navigator").

Definition onRecenterButtonClick : M unit :=
  consoleLog "onRecenterButtonClick".

Definition onShowNavControlsClick : M unit :=
  setOverlayType OverlayType.NavControls.

Definition onShowMapsControlsClick : M unit :=
  setOverlayType OverlayType.MapControls.

Definition onMarkerClick : M unit := consoleLog "onMarkerClick:".

Definition onPolygonClick (s : State) (id : string) : M unit :=
  consoleLog "onPolygonClick:" ;;
  match mapViewController s with
  | Some mvc => callSdk (MapCall mvc (removePolygon id))
  | None => ret tt
  end.

Definition onCircleClick (s : State) (id : string) : M unit :=
  consoleLog "onCircleClick:" ;;
  match mapViewController s with
  | Some mvc => callSdk (MapCall mvc (removeCircle id))
  | None => ret tt
  end.

Definition onPolylineClick (s : State) (id : string) : M unit :=
  consoleLog "onPolylineClick:" ;;
  match mapViewController s with
  | Some mvc => callSdk (MapCall mvc (removePolyline id))
  | None => ret tt
  end.

Definition onMarkerInfoWindowTapped : M unit :=
  consoleLog "onMarkerInfoWindowTapped:".

Definition onMapClick : M unit := consoleLog "onMapClick:".

Definition closeOverlay : M unit := setOverlayType OverlayType.None.

Definition onValueChange (s : State) : M unit :=
  setMargin (if truthy (margin s) then None else Some marginAmount).

Definition handle (h : Hooks) (s : State) (e : Event) : M unit :=
  match e with
  | Focus => onFocus
  | Blur => onBlur h s
  | MapViewControllerCreated c => setMapViewController (Some c)
  | NavigationViewControllerCreated c => setNavigationViewController (Some c)
  | RecenterButtonClick => onRecenterButtonClick
  | RouteChanged => onRouteChanged
  | Arrival event => onArrival h event
  | NavigationReady => onNavigationReady h s
  | NavigationInitError errorCode => onNavigationInitError errorCode
  | LocationChanged => onLocationChanged
  | RawLocationChanged => onRawLocationChanged
  | TrafficUpdated => onTrafficUpdated
  | RouteStatusResult routeStatus => onRouteStatusResult routeStatus
  | StartGuidance => onStartGuidance
  | RemainingTimeOrDistanceChanged => onRemainingTimeOrDistanceChanged h
  | TurnByTurn => onTurnByTurn
  | MapReady => onMapReady h s
  | MarkerClick => onMarkerClick
  | PolygonClick id => onPolygonClick s id
  | CircleClick id => onCircleClick s id
  | PolylineClick id => onPolylineClick s id
  | MarkerInfoWindowTapped => onMarkerInfoWindowTapped
  | MapClick => onMapClick
  | NavigationDispose => onNavigationDispose s
  | ShowNavControlsClick => onShowNavControlsClick
  | ShowMapsControlsClick => onShowMapsControlsClick
  | CloseOverlay => closeOverlay
  | MarginSwitch => onValueChange s
  end.

Definition rendersView (h : Hooks) (s : State) : bool :=
  arePermissionsApproved h && displayMap s.

Definition navControlsOverlayRendered (h : Hooks) (s : State) : bool :=
  rendersView h s &&
  (notNull (navigationViewController s) &&
   notNull (Some (navigationController h)) &&
   navigationInitialized s).

Definition navControlsOverlayVisible (h : Hooks) (s : State) : bool :=
  navControlsOverlayRendered h s &&
  OverlayType.eqb (overlayType s) OverlayType.NavControls.

Definition mapControlsOverlayRendered (h : Hooks) (s : State) : bool :=
  rendersView h s && notNull (mapViewController s).

Definition mapControlsOverlayVisible (h : Hooks) (s : State) : bool :=
  mapControlsOverlayRendered h s &&
  OverlayType.eqb (overlayType s) OverlayType.MapControls.

Definition navigationButtonDisabled (s : State) : bool :=
  negb (navigationInitialized s).

Definition switchValue (s : State) : bool := truthy (margin s).

Definition viewMargin (s : State) : option Z := margin s.

End Part000.

(** ** Running a screen *)

(** The two source files. *)
Inductive Screen := Example | Unnamed.

Definition handle (sc : Screen) : Hooks -> State -> Event -> M unit :=
  match sc with
  | Example => NavigationScreen.handle
  | Unnamed => Part000.handle
  end.

Definition navControlsOverlayRendered (sc : Screen) : Hooks -> State -> bool :=
  match sc with
  | Example => NavigationScreen.navControlsOverlayRendered
  | Unnamed => Part000.navControlsOverlayRendered
  end.

Definition navControlsOverlayVisible (sc : Screen) : Hooks -> State -> bool :=
  match sc with
  | Example => NavigationScreen.navControlsOverlayVisible
  | Unnamed => Part000.navControlsOverlayVisible
  end.

Definition mapControlsOverlayVisible (sc : Screen) : Hooks -> State -> bool :=
  match sc with
  | Example => NavigationScreen.mapControlsOverlayVisible
  | Unnamed => Part000.mapControlsOverlayVisible
  end.

Definition navigationButtonDisabled (sc : Screen) : State -> bool :=
  match sc with
  | Example => NavigationScreen.navigationButtonDisabled
  | Unnamed => Part000.navigationButtonDisabled
  end.

(** One event: its handler runs to completion from the current world, with
    the current state as the state its closure captured. *)
Definition step (sc : Screen) (h : Hooks) (fails : Oracle) (w : World) (e : Event)
  : Result unit * World :=
  handle sc h (state w) e fails w.

(** A sequence of events; a handler that throws leaves its writes and effects
    in place (its promise is rejected, nothing is rolled back). *)
Fixpoint run (sc : Screen) (h : Hooks) (fails : Oracle) (w : World) (es : list Event)
  : World :=
  match es with
  | [] => w
  | e :: es' => run sc h fails (snd (step sc h fails w e)) es'
  end.

(** The world in which the component mounts. *)
Definition mount : World := {| state := initialState; trace := [] |}.

Definition world (s : State) : World := {| state := s; trace := [] |}.

(** The overlays a rendered screen shows. *)
Definition visibleOverlays (sc : Screen) (h : Hooks) (s : State) : list OverlayType.t :=
  (if navControlsOverlayVisible sc h s then [OverlayType.NavControls] else []) ++
  (if mapControlsOverlayVisible sc h s then [OverlayType.MapControls] else []).

Definition listenersEffect (sc : Screen) : NavigationCallbacks -> M (M unit) :=
  match sc with
  | Example => NavigationScreen.listenersEffect
  | Unnamed => Part000.listenersEffect
  end.

(** React's contract for [useEffect]: the effect runs after the render that
    mounts the component and again after every render in which a dependency
    changed, each time after the cleanup returned by its previous run; the
    last cleanup runs when the component unmounts.  [tables] are the
    successive identities of [navigationCallbacks], [pending] the cleanup
    still owed. *)
Fixpoint effectLifecycle (effect : NavigationCallbacks -> M (M unit))
  (pending : M unit) (tables : list NavigationCallbacks) : M unit :=
  match tables with
  | [] => pending
  | t :: rest =>
      pending ;;
      bind (effect t) (fun cleanUp => effectLifecycle effect cleanUp rest)
  end.

(** *** Reading a trace *)

Definition sdkCalls (t : list Effect) : list SdkCall :=
  flat_map (fun e => match e with Sdk c => [c] | _ => [] end) t.

Definition snackbars (t : list Effect) : list string :=
  flat_map (fun e => match e with SnackbarShow text _ => [text] | _ => [] end) t.

(** What a step adds to the trace of the world it starts from. *)
Definition emitted (w w' : World) : list Effect :=
  skipn (List.length (trace w)) (trace w').

(** A handler respects a relation on states when every run of it, whatever
    fails, takes the state to a related one. *)
Definition respects {A} (R : State -> State -> Prop) (m : M A) : Prop :=
  forall fails w, R (state w) (state (snd (m fails w))).

(** Relations used with [respects]. *)
Definition sameState (s s' : State) : Prop := s' = s.

Definition keepsHandles (s s' : State) : Prop :=
  (notNull (mapViewController s) = true ->
   notNull (mapViewController s') = true) /\
  (notNull (navigationViewController s) = true ->
   notNull (navigationViewController s') = true).

Definition marginIn (s s' : State) : Prop :=
  (margin s = None \/ margin s = Some marginAmount) ->
  (margin s' = None \/ margin s' = Some marginAmount).

Definition staysUninitialized (s s' : State) : Prop :=
  navigationInitialized s = false -> navigationInitialized s' = false.

(** *** Route status *)

(** The failure codes the spec lists. *)
Definition failureCodes : list RouteStatus :=
  [ROUTE_CANCELED; NO_ROUTE_FOUND; NETWORK_ERROR; LOCATION_DISABLED; LOCATION_UNKNOWN].

(** The text of the notification shown for a route status. *)
Definition notificationText (r : RouteStatus) : string :=
  match r with
  | OK => "Route created"
  | ROUTE_CANCELED => "Error: Route Cancelled"
  | NO_ROUTE_FOUND => "Error: No Route Found"
  | NETWORK_ERROR => "Error: Network Error"
  | LOCATION_DISABLED => "Error: Location Disabled"
  | LOCATION_UNKNOWN => "Error: Location Unknown"
  | OTHER _ => "Error: Starting Guidance Error"
  end.

(** Whether the screen answers a route status with an error notification: a
    snackbar whose text starts with [Error], shown while no SDK call fails. *)
Definition showsErrorNotification (sc : Screen) (h : Hooks) (s : State)
  (r : RouteStatus) : bool :=
  existsb (String.prefix "Error")
          (snackbars (trace (snd (step sc h neverFails (world s) (RouteStatusResult r))))).

(** *** Comparing the two screens *)

Definition origin : LatLng := {| lat := 0; lng := 0 |}.

(** A call with its coordinate literals blanked. *)
Definition eraseCoordinates (c : SdkCall) : SdkCall :=
  match c with
  | MapCall mvc (moveCamera cp) =>
      MapCall mvc (moveCamera {| target := origin; zoom := zoom cp;
                                 bearing := bearing cp; tilt := tilt cp |})
  | MapCall mvc (addMarker o) =>
      MapCall mvc (addMarker {| markerPosition := origin; visible := visible o |})
  | NavCall nc (setDestinations ds ro) =>
      NavCall nc (setDestinations (map (fun _ => {| position := origin |}) ds) ro)
  | _ => c
  end.

(** The two screens behave alike on an event up to coordinates and logging:
    same state afterwards, same controller calls once coordinates are
    blanked (console output is not compared). *)
Definition alikeUpToCosmetics (h : Hooks) (fails : Oracle) (w : World) (e : Event)
  : Prop :=
  let a := snd (step Example h fails w e) in
  let b := snd (step Unnamed h fails w e) in
  state a = state b /\
  map eraseCoordinates (sdkCalls (trace a)) = map eraseCoordinates (sdkCalls (trace b)).

(** The events whose handlers are not the same text in the two files. *)
Definition differing (e : Event) : bool :=
  match e with
  | NavigationReady | RouteStatusResult OK | RecenterButtonClick => true
  | _ => false
  end.

(** *** Blur *)

(** The calls of the cleanup routine, given whether [clearDestinations]
    failed. *)
Definition cleanUpCalls (h : Hooks) (s : State) (clearDestinationsFailed : bool)
  : list Effect :=
  match mapViewController s with
  | Some mvc => [Sdk (MapCall mvc clearMapView)]
  | None => []
  end ++
  [Sdk (NavCall (navigationController h) clearDestinations)] ++
  (if clearDestinationsFailed then []
   else [Sdk (NavCall (navigationController h) cleanup)]).

(** What the oracle answers when the cleanup routine, started in [w], awaits
    [clearDestinations]. *)
Definition clearDestinationsFailed (h : Hooks) (fails : Oracle) (w : World) : bool :=
  fails (trace w ++
         match mapViewController (state w) with
         | Some mvc => [Sdk (MapCall mvc clearMapView)]
         | None => []
         end)%list
        (NavCall (navigationController h) clearDestinations).

Definition isClearDestinations (c : SdkCall) : bool :=
  match c with NavCall _ clearDestinations => true | _ => false end.

(** *** Sample inputs *)

Definition hooks0 : Hooks :=
  {| arePermissionsApproved := true; navigationController := 0%nat |}.

(** A focused screen whose two view controllers have been created. *)
Definition readyState : State := {|
  overlayType := OverlayType.None;
  mapViewController := Some 1%nat;
  navigationViewController := Some 2%nat;
  navigationInitialized := true;
  displayMap := true;
  margin := None
|}.

(** An SDK in which every [moveCamera] fails. *)
Definition cameraFails : Oracle :=
  fun _ c => match c with MapCall _ (moveCamera _) => true | _ => false end.

(** An SDK in which every [setDestinations] fails. *)
Definition destinationsFail : Oracle :=
  fun _ c => match c with NavCall _ (setDestinations _ _) => true | _ => false end.

Definition isNavigationReady (e : Event) : bool :=
  match e with NavigationReady => true | _ => false end.

(** ** Further vocabulary for stating what the handlers do *)

Definition createWayPoints (sc : Screen) : State -> list LatLng -> M unit :=
  match sc with
  | Example => NavigationScreen.createWayPoints
  | Unnamed => Part000.createWayPoints
  end.

Definition moveCameraToStartingSpot (sc : Screen) : State -> M unit :=
  match sc with
  | Example => NavigationScreen.moveCameraToStartingSpot
  | Unnamed => Part000.moveCameraToStartingSpot
  end.

Definition rendersView (sc : Screen) : Hooks -> State -> bool :=
  match sc with
  | Example => NavigationScreen.rendersView
  | Unnamed => Part000.rendersView
  end.

Definition mapControlsOverlayRendered (sc : Screen) : Hooks -> State -> bool :=
  match sc with
  | Example => NavigationScreen.mapControlsOverlayRendered
  | Unnamed => Part000.mapControlsOverlayRendered
  end.

(** The [addMarker] call [createWayPoints] makes for one way point. *)
Definition markerCall (mvc : MapViewController) (wayPoint : LatLng) : SdkCall :=
  MapCall mvc (addMarker {| markerPosition := wayPoint; visible := true |}).

Definition isAddMarker (e : Effect) : Prop :=
  match e with
  | Sdk (MapCall _ (addMarker _)) => True
  | _ => False
  end.

Definition isSetDestinations (c : SdkCall) : bool :=
  match c with NavCall _ (setDestinations _ _) => true | _ => false end.

(** The state cells. *)
Inductive Cell :=
| OverlayTypeCell
| MapViewControllerCell
| NavigationViewControllerCell
| NavigationInitializedCell
| DisplayMapCell
| MarginCell.

(** The one cell, if any, that the handler of an event may write. *)
Definition writes (e : Event) : option Cell :=
  match e with
  | Focus | Blur => Some DisplayMapCell
  | MapViewControllerCreated _ => Some MapViewControllerCell
  | NavigationViewControllerCreated _ => Some NavigationViewControllerCell
  | NavigationReady | NavigationDispose => Some NavigationInitializedCell
  | ShowNavControlsClick | ShowMapsControlsClick | CloseOverlay =>
      Some OverlayTypeCell
  | MarginSwitch => Some MarginCell
  | _ => None
  end.

(** Two states agree on every cell other than [c]. *)
Definition sameOutside (c : option Cell) (s s' : State) : Prop :=
  (c <> Some OverlayTypeCell -> overlayType s' = overlayType s) /\
  (c <> Some MapViewControllerCell -> mapViewController s' = mapViewController s) /\
  (c <> Some NavigationViewControllerCell ->
   navigationViewController s' = navigationViewController s) /\
  (c <> Some NavigationInitializedCell ->
   navigationInitialized s' = navigationInitialized s) /\
  (c <> Some DisplayMapCell -> displayMap s' = displayMap s) /\
  (c <> Some MarginCell -> margin s' = margin s).


(** An SDK in which every awaited call fails. *)
Definition alwaysFails : Oracle := fun _ _ => true.



(** A handler only extends the trace, and only by effects satisfying [P]. *)
Definition emitsOnly {A} (P : Effect -> Prop) (m : M A) : Prop :=
  forall fails w,
    exists l, trace (snd (m fails w)) = (trace w ++ l)%list /\ Forall P l.


Definition staysInitialized (s s' : State) : Prop :=
  navigationInitialized s = true -> navigationInitialized s' = true.

Definition isNavigationDispose (e : Event) : bool :=
  match e with NavigationDispose => true | _ => false end.

Definition staysHidden (s s' : State) : Prop :=
  displayMap s = false -> displayMap s' = false.

Definition isFocus (e : Event) : bool :=
  match e with Focus => true | _ => false end.

(** What the oracle answers when [moveCameraToStartingSpot] of part_000,
    called first thing after the log of [onNavigationReady], awaits
    [moveCamera]; [false] when there is no map view controller. *)
Definition part000CameraFailed (fails : Oracle) (w : World) : bool :=
  match mapViewController (state w) with
  | Some mvc =>
      fails (trace w ++ [ConsoleLog "onNavigationReady"])%list
            (MapCall mvc (moveCamera Part000.startingSpot))
  | None => false
  end.

(** The events on which a screen can show a snackbar. *)
Definition notifies (sc : Screen) (e : Event) : bool :=
  match e with
  | RouteChanged | Arrival _ | NavigationInitError _ | TrafficUpdated
  | RouteStatusResult _ | StartGuidance | MapReady => true
  | NavigationReady | RecenterButtonClick =>
      match sc with Example => true | Unnamed => false end
  | _ => false
  end.

Definition notSnackbar (e : Effect) : Prop :=
  match e with
  | SnackbarShow _ _ => False
  | _ => True
  end.

(** The handlers, to be unfolded when a step is evaluated. *)
Create HintDb handlers.
#[global] Hint Unfold NavigationScreen.onRouteChanged
  NavigationScreen.cleanUpNavigation NavigationScreen.moveCameraToStartingSpot
  NavigationScreen.onFocus NavigationScreen.onBlur NavigationScreen.onArrival
  NavigationScreen.onTrafficUpdated NavigationScreen.onNavigationReady
  NavigationScreen.onNavigationDispose NavigationScreen.onNavigationInitError
  NavigationScreen.onStartGuidance NavigationScreen.onRouteStatusOk
  NavigationScreen.onRouteCancelled NavigationScreen.onNoRouteFound
  NavigationScreen.onNetworkError NavigationScreen.onStartingGuidanceError
  NavigationScreen.onLocationDisabled NavigationScreen.onLocationUnknown
  NavigationScreen.onLocationChanged NavigationScreen.onRawLocationChanged
  NavigationScreen.onTurnByTurn
  NavigationScreen.onRemainingTimeOrDistanceChanged
  NavigationScreen.onRouteStatusResult NavigationScreen.listenersEffect
  NavigationScreen.onMapReady NavigationScreen.onRecenterButtonClick
  NavigationScreen.onShowNavControlsClick
  NavigationScreen.onShowMapsControlsClick NavigationScreen.onMarkerClick
  NavigationScreen.onPolygonClick NavigationScreen.onCircleClick
  NavigationScreen.onPolylineClick NavigationScreen.onMarkerInfoWindowTapped
  NavigationScreen.onMapClick NavigationScreen.closeOverlay
  NavigationScreen.onValueChange NavigationScreen.handle
  NavigationScreen.rendersView NavigationScreen.navControlsOverlayRendered
  NavigationScreen.navControlsOverlayVisible
  NavigationScreen.mapControlsOverlayRendered
  NavigationScreen.mapControlsOverlayVisible
  NavigationScreen.navigationButtonDisabled NavigationScreen.switchValue
  NavigationScreen.viewMargin : handlers.
#[global] Hint Unfold Part000.onRouteChanged Part000.cleanUpNavigation
  Part000.moveCameraToStartingSpot Part000.onFocus Part000.onBlur
  Part000.onArrival Part000.onTrafficUpdated Part000.onNavigationReady
  Part000.onNavigationDispose Part000.onNavigationInitError
  Part000.onStartGuidance Part000.onRouteStatusOk Part000.onRouteCancelled
  Part000.onNoRouteFound Part000.onNetworkError
  Part000.onStartingGuidanceError Part000.onLocationDisabled
  Part000.onLocationUnknown Part000.onLocationChanged
  Part000.onRawLocationChanged Part000.onTurnByTurn
  Part000.onRemainingTimeOrDistanceChanged Part000.onRouteStatusResult
  Part000.listenersEffect Part000.onMapReady Part000.onRecenterButtonClick
  Part000.onShowNavControlsClick Part000.onShowMapsControlsClick
  Part000.onMarkerClick Part000.onPolygonClick Part000.onCircleClick
  Part000.onPolylineClick Part000.onMarkerInfoWindowTapped Part000.onMapClick
  Part000.closeOverlay Part000.onValueChange Part000.handle
  Part000.rendersView Part000.navControlsOverlayRendered
  Part000.navControlsOverlayVisible Part000.mapControlsOverlayRendered
  Part000.mapControlsOverlayVisible Part000.navigationButtonDisabled
  Part000.switchValue Part000.viewMargin : handlers.

(** * Properties *)

Lemma OverlayType_eqb_eq (a b : OverlayType.t) :
  OverlayType.eqb a b = true <-> a = b.
Proof. destruct a, b; simpl; split; congruence. Qed.

(** ** How the monad's operations treat the state *)

Section Respects.
Variable R : State -> State -> Prop.
Hypothesis R_refl : forall s, R s s.
Hypothesis R_trans : forall s1 s2 s3, R s1 s2 -> R s2 s3 -> R s1 s3.

Lemma respects_ret {A} (a : A) : respects R (ret a).
Proof. intros fails w; apply R_refl. Qed.

Lemma respects_emit (e : Effect) : respects R (emit e).
Proof. intros fails w; apply R_refl. Qed.

Lemma respects_awaitSdk (c : SdkCall) : respects R (awaitSdk c).
Proof.
  intros fails w; unfold awaitSdk.
  destruct (fails (trace w) c); apply R_refl.
Qed.

Lemma respects_modify (f : State -> State) :
  (forall s, R s (f s)) -> respects R (modify f).
Proof. intros Hf fails w; apply Hf. Qed.

Lemma respects_bind {A B} (m : M A) (k : A -> M B) :
  respects R m -> (forall a, respects R (k a)) -> respects R (bind m k).
Proof.
  intros Hm Hk fails w; unfold bind.
  specialize (Hm fails w).
  destruct (m fails w) as [[a | e] w1]; simpl in *.
  - eapply R_trans; [exact Hm | apply Hk].
  - exact Hm.
Qed.

Lemma respects_tryCatch {A} (body : M A) (handler : Exn -> M A) :
  respects R body -> (forall e, respects R (handler e)) ->
  respects R (tryCatch body handler).
Proof.
  intros Hb Hh fails w; unfold tryCatch.
  specialize (Hb fails w).
  destruct (body fails w) as [[a | e] w1]; simpl in *.
  - exact Hb.
  - eapply R_trans; [exact Hb | apply Hh].
Qed.

Lemma respects_notAwaited (m : M unit) :
  respects R m -> respects R (notAwaited m).
Proof.
  intros Hm fails w; unfold notAwaited.
  specialize (Hm fails w).
  destruct (m fails w) as [r w1]; exact Hm.
Qed.

Lemma respects_example_createWayPoints (s : State) (l : list LatLng) :
  respects R (NavigationScreen.createWayPoints s l).
Proof.
  induction l as [| p l IH]; simpl.
  - apply respects_ret.
  - apply respects_bind; [| intros _; exact IH].
    destruct (mapViewController s); [apply respects_awaitSdk | apply respects_ret].
Qed.

Lemma respects_part000_createWayPoints (s : State) (l : list LatLng) :
  respects R (Part000.createWayPoints s l).
Proof.
  induction l as [| p l IH]; simpl.
  - apply respects_ret.
  - apply respects_bind; [| intros _; exact IH].
    destruct (mapViewController s); [apply respects_awaitSdk | apply respects_ret].
Qed.

End Respects.

(** Breaks a handler into the operations it is made of, given that the
    relation is reflexive and transitive; the writes are what is left. *)
Ltac head_of t :=
  match t with
  | ?f _ => head_of f
  | _ => t
  end.

Ltac respects_step refl trans :=
  match goal with
  | |- respects _ (bind _ _) => apply (respects_bind _ trans); [| intros ?]
  | |- respects _ (tryCatch _ _) => apply (respects_tryCatch _ trans); [| intros ?]
  | |- respects _ (notAwaited _) => apply respects_notAwaited
  | |- respects _ (ret _) => apply (respects_ret _ refl)
  | |- respects _ (emit _) => apply (respects_emit _ refl)
  | |- respects _ (consoleLog _) => apply (respects_emit _ refl)
  | |- respects _ (consoleError _) => apply (respects_emit _ refl)
  | |- respects _ (showSnackbar _) => apply (respects_emit _ refl)
  | |- respects _ (callSdk _) => apply (respects_emit _ refl)
  | |- respects _ (awaitSdk _) => apply (respects_awaitSdk _ refl)
  | |- respects _ (NavigationScreen.createWayPoints _ _) =>
      apply (respects_example_createWayPoints _ refl trans)
  | |- respects _ (Part000.createWayPoints _ _) =>
      apply (respects_part000_createWayPoints _ refl trans)
  | |- respects _ (match ?x with _ => _ end) => destruct x
  | |- respects _ (modify _) => fail 1
  | |- respects _ ?m => let f := head_of m in progress unfold f
  end.

Ltac respects_handler refl trans := repeat respects_step refl trans.

Ltac respects_write :=
  apply respects_modify; intros ?;
  cbv [sameState keepsHandles marginIn staysUninitialized]; simpl; intuition auto.

Lemma sameState_refl (s : State) : sameState s s.
Proof. reflexivity. Qed.

Lemma sameState_trans (s1 s2 s3 : State) :
  sameState s1 s2 -> sameState s2 s3 -> sameState s1 s3.
Proof. unfold sameState; congruence. Qed.

Lemma keepsHandles_refl (s : State) : keepsHandles s s.
Proof. split; auto. Qed.

Lemma keepsHandles_trans (s1 s2 s3 : State) :
  keepsHandles s1 s2 -> keepsHandles s2 s3 -> keepsHandles s1 s3.
Proof. unfold keepsHandles; intuition auto. Qed.

Lemma marginIn_refl (s : State) : marginIn s s.
Proof. unfold marginIn; auto. Qed.

Lemma marginIn_trans (s1 s2 s3 : State) :
  marginIn s1 s2 -> marginIn s2 s3 -> marginIn s1 s3.
Proof. unfold marginIn; auto. Qed.

Lemma staysUninitialized_refl (s : State) : staysUninitialized s s.
Proof. unfold staysUninitialized; auto. Qed.

Lemma staysUninitialized_trans (s1 s2 s3 : State) :
  staysUninitialized s1 s2 -> staysUninitialized s2 s3 -> staysUninitialized s1 s3.
Proof. unfold staysUninitialized; auto. Qed.

(** No handler of either screen turns a controller handle back to [null]. *)
Lemma handle_keepsHandles (sc : Screen) (h : Hooks) (s : State) (e : Event) :
  respects keepsHandles (handle sc h s e).
Proof.
  destruct sc, e; simpl;
    respects_handler keepsHandles_refl keepsHandles_trans; respects_write.
Qed.

(** Every write of the margin stores [null] or [marginAmount]. *)
Lemma handle_marginIn (sc : Screen) (h : Hooks) (s : State) (e : Event) :
  respects marginIn (handle sc h s e).
Proof.
  destruct sc, e; simpl;
    respects_handler marginIn_refl marginIn_trans; respects_write.
  all: destruct (truthy (margin s)); auto.
Qed.

(** Only the navigation-ready handler raises [navigationInitialized]. *)
Lemma handle_staysUninitialized (sc : Screen) (h : Hooks) (s : State) (e : Event) :
  isNavigationReady e = false ->
  respects staysUninitialized (handle sc h s e).
Proof.
  intros He; destruct sc, e; try discriminate He; simpl;
    respects_handler staysUninitialized_refl staysUninitialized_trans;
    respects_write.
Qed.

(** A relation every handler respects holds between the two ends of a run. *)
Lemma run_respects (R : State -> State -> Prop)
  (R_refl : forall s, R s s)
  (R_trans : forall s1 s2 s3, R s1 s2 -> R s2 s3 -> R s1 s3)
  (sc : Screen) (h : Hooks) (allowed : Event -> bool) :
  (forall s e, allowed e = true -> respects R (handle sc h s e)) ->
  forall fails es w,
    forallb allowed es = true ->
    R (state w) (state (run sc h fails w es)).
Proof.
  intros Hh fails es; induction es as [| e es IH]; intros w Hes; simpl in *.
  - apply R_refl.
  - apply andb_true_iff in Hes as [He Hes].
    eapply R_trans; [| apply IH; exact Hes].
    unfold step; apply Hh; exact He.
Qed.

Lemma forallb_always {A} (l : list A) : forallb (fun _ => true) l = true.
Proof. induction l; simpl; auto. Qed.

Lemma forallb_not_ready (es : list Event) :
  existsb isNavigationReady es = false ->
  forallb (fun e => negb (isNavigationReady e)) es = true.
Proof.
  induction es as [| e es IH]; simpl; auto.
  intros H; apply orb_false_iff in H as [He Hes].
  rewrite He, IH; auto.
Qed.

(** The two overlays are never visible together, whatever the state. *)
Lemma visibleOverlays_at_most_one (sc : Screen) (h : Hooks) (s : State) :
  (List.length (visibleOverlays sc h s) <= 1)%nat.
Proof.
  unfold visibleOverlays.
  destruct sc; simpl;
    cbv [NavigationScreen.navControlsOverlayVisible
         NavigationScreen.mapControlsOverlayVisible
         Part000.navControlsOverlayVisible Part000.mapControlsOverlayVisible];
    destruct (overlayType s); simpl; rewrite ?andb_false_r; simpl;
    repeat match goal with
           | |- context [if ?b then _ else _] => destruct b
           end; simpl; lia.
Qed.

(** C1. Overlay visibility is mutually exclusive: after every sequence of
    events at most one overlay is visible; the show-navigation-controls
    handler sets the overlay state to NavControls, so the MapControls overlay
    is not visible; the show-maps-controls handler sets it to MapControls, so
    the NavControls overlay is not visible; closeOverlay sets it to None and
    then no overlay is visible. *)
Theorem overlays_mutually_exclusive
  (sc : Screen) (h : Hooks) (fails : Oracle) (w : World) (es : list Event) :
  (List.length (visibleOverlays sc h (state (run sc h fails w es))) <= 1)%nat /\
  (let s' := state (snd (step sc h fails w ShowNavControlsClick)) in
   overlayType s' = OverlayType.NavControls /\
   mapControlsOverlayVisible sc h s' = false) /\
  (let s' := state (snd (step sc h fails w ShowMapsControlsClick)) in
   overlayType s' = OverlayType.MapControls /\
   navControlsOverlayVisible sc h s' = false) /\
  (let s' := state (snd (step sc h fails w CloseOverlay)) in
   overlayType s' = OverlayType.None /\
   visibleOverlays sc h s' = []).
Proof.
  split; [apply visibleOverlays_at_most_one |].
  destruct sc; cbn; repeat split;
    cbv [NavigationScreen.navControlsOverlayVisible
         NavigationScreen.mapControlsOverlayVisible
         Part000.navControlsOverlayVisible Part000.mapControlsOverlayVisible
         visibleOverlays navControlsOverlayVisible mapControlsOverlayVisible];
    cbn; rewrite ?andb_false_r; reflexivity.
Qed.

(** C6. Each controller handle starts as null; the controller-created
    callback sets it to the created controller; and over every sequence of
    events a handle that is non-null stays non-null. *)
Theorem controller_handles_never_revert
  (sc : Screen) (h : Hooks) (fails : Oracle) (w : World) (es : list Event)
  (c : nat) :
  mapViewController initialState = None /\
  navigationViewController initialState = None /\
  mapViewController (state (snd (step sc h fails w (MapViewControllerCreated c))))
    = Some c /\
  navigationViewController
    (state (snd (step sc h fails w (NavigationViewControllerCreated c))))
    = Some c /\
  (notNull (mapViewController (state w)) = true ->
   notNull (mapViewController (state (run sc h fails w es))) = true) /\
  (notNull (navigationViewController (state w)) = true ->
   notNull (navigationViewController (state (run sc h fails w es))) = true).
Proof.
  repeat (split; [solve [reflexivity | destruct sc; reflexivity] |]).
  apply (run_respects keepsHandles keepsHandles_refl keepsHandles_trans
           sc h (fun _ => true)).
  - intros s e _; apply handle_keepsHandles.
  - apply forallb_always.
Qed.

Lemma controller_handles_never_revert_witness :
  notNull (mapViewController
             (state (run Example hooks0 cameraFails (world readyState)
                         [Blur; NavigationReady; NavigationDispose; CloseOverlay])))
  = true /\
  notNull (navigationViewController
             (state (run Unnamed hooks0 neverFails (world readyState)
                         [NavigationDispose; Blur; MapViewControllerCreated 5%nat])))
  = true.
Proof.
  split.
  - apply (controller_handles_never_revert Example hooks0 cameraFails
             (world readyState)
             [Blur; NavigationReady; NavigationDispose; CloseOverlay] 0%nat).
    reflexivity.
  - apply (controller_handles_never_revert Unnamed hooks0 neverFails
             (world readyState)
             [NavigationDispose; Blur; MapViewControllerCreated 5%nat] 0%nat).
    reflexivity.
Defined.

(** C7. Toggling the margin switch sets the margin to null when it is
    truthy and to 50 when it is null or otherwise falsy; two toggles give a
    margin of the truthiness of the original; from mount on, the margin is
    only ever null or 50. *)
Theorem margin_toggle_alternates
  (sc : Screen) (h : Hooks) (fails : Oracle) (w : World) (es : list Event) :
  margin (state (snd (step sc h fails w MarginSwitch)))
    = (if truthy (margin (state w)) then None else Some 50%Z) /\
  truthy (margin (state (run sc h fails w [MarginSwitch; MarginSwitch])))
    = truthy (margin (state w)) /\
  (margin (state (run sc h fails mount es)) = None \/
   margin (state (run sc h fails mount es)) = Some 50%Z).
Proof.
  split; [destruct sc; reflexivity |].
  split.
  - destruct sc; cbn; destruct (truthy (margin (state w))); reflexivity.
  - apply (run_respects marginIn marginIn_refl marginIn_trans
             sc h (fun _ => true)).
    + intros s e _; apply handle_marginIn.
    + apply forallb_always.
    + left; reflexivity.
Qed.

Lemma emitted_app (w : World) (s : State) (l : list Effect) :
  emitted w {| state := s; trace := trace w ++ l |} = l.
Proof.
  unfold emitted; simpl.
  induction (trace w) as [| x t IH]; simpl; auto.
Qed.

(** Runs a handler symbolically and brings the trace into the form
    [trace w ++ effects]. *)
Ltac eval_handler :=
  repeat (cbn; autounfold with handlers;
          cbv [showSnackbar consoleLog consoleError callSdk emit modify ret bind
               tryCatch notAwaited awaitSdk setDisplayMap setOverlayType
               setMargin setNavigationInitialized setMapViewController
               setNavigationViewController]);
  rewrite <- ?app_assoc; cbn.

Lemma arrival_trace (sc : Screen) (h : Hooks) (fails : Oracle) (w : World)
  (event : ArrivalEvent) :
  step sc h fails w (Arrival event) =
  (Returned tt,
   {| state := state w;
      trace := trace w ++
        (if isFinalDestination event
         then [ConsoleLog "Final destination reached";
               Sdk (NavCall (navigationController h) stopGuidance)]
         else [ConsoleLog "Continuing to the next destination";
               Sdk (NavCall (navigationController h) continueToNextDestination);
               Sdk (NavCall (navigationController h) startGuidance)]) ++
        [SnackbarShow "Arrived" LENGTH_SHORT] |}).
Proof.
  destruct sc, event as [[|]]; eval_handler; reflexivity.
Qed.

(** C9. On an arrival event whose isFinalDestination flag is true the
    handler calls stopGuidance on the navigation controller and makes no
    other controller call; when the flag is false it calls
    continueToNextDestination and then startGuidance; in both cases it shows
    exactly one notification, 'Arrived', returns normally and leaves the
    state as it was. *)
Theorem arrival_stops_or_continues
  (sc : Screen) (h : Hooks) (fails : Oracle) (w : World) (event : ArrivalEvent) :
  let r := step sc h fails w (Arrival event) in
  fst r = Returned tt /\
  state (snd r) = state w /\
  sdkCalls (emitted w (snd r)) =
    (if isFinalDestination event
     then [NavCall (navigationController h) stopGuidance]
     else [NavCall (navigationController h) continueToNextDestination;
           NavCall (navigationController h) startGuidance]) /\
  snackbars (emitted w (snd r)) = ["Arrived"].
Proof.
  cbv zeta; rewrite arrival_trace; cbn [fst snd state].
  rewrite emitted_app.
  destruct (isFinalDestination event); repeat split; reflexivity.
Qed.

(** What each screen does with a route status other than OK. *)
Lemma route_status_trace (sc : Screen) (h : Hooks) (fails : Oracle) (w : World)
  (r : RouteStatus) :
  r <> OK ->
  step sc h fails w (RouteStatusResult r) =
  (Returned tt,
   {| state := state w;
      trace := trace w ++
        match r with
        | OTHER name => [ConsoleLog ("routeStatus: " ++ name)]
        | _ => []
        end ++
        [SnackbarShow (notificationText r) LENGTH_SHORT] |}).
Proof.
  intros Hr; destruct sc, r; try congruence; eval_handler; reflexivity.
Qed.

(** C2, as amended. For every route status other than OK the handler
    returns normally, leaves the state as it was, makes no controller call
    and shows exactly one snackbar: the one naming the error for each of
    ROUTE_CANCELED, NO_ROUTE_FOUND, NETWORK_ERROR, LOCATION_DISABLED and
    LOCATION_UNKNOWN, and, through the default branch of the switch, 'Error:
    Starting Guidance Error' (after logging the status) for every other
    value; so the statuses answered with an error notification are all the
    statuses other than OK. *)
Theorem route_status_failures_notified
  (sc : Screen) (h : Hooks) (fails : Oracle) (w : World) (r : RouteStatus) :
  match r with
  | OK => showsErrorNotification sc h (state w) r = false
  | _ =>
      let res := step sc h fails w (RouteStatusResult r) in
      fst res = Returned tt /\
      state (snd res) = state w /\
      sdkCalls (emitted w (snd res)) = [] /\
      emitted w (snd res) =
        match r with
        | OK => []
        | ROUTE_CANCELED => [SnackbarShow "Error: Route Cancelled" LENGTH_SHORT]
        | NO_ROUTE_FOUND => [SnackbarShow "Error: No Route Found" LENGTH_SHORT]
        | NETWORK_ERROR => [SnackbarShow "Error: Network Error" LENGTH_SHORT]
        | LOCATION_DISABLED => [SnackbarShow "Error: Location Disabled" LENGTH_SHORT]
        | LOCATION_UNKNOWN => [SnackbarShow "Error: Location Unknown" LENGTH_SHORT]
        | OTHER name =>
            [ConsoleLog ("routeStatus: " ++ name);
             SnackbarShow "Error: Starting Guidance Error" LENGTH_SHORT]
        end /\
      showsErrorNotification sc h (state w) r = true
  end.
Proof.
  destruct r;
    try (cbv zeta; rewrite route_status_trace by discriminate;
         cbn [fst snd state]; rewrite emitted_app;
         repeat split; destruct sc; reflexivity).
  destruct sc; cbv [showsErrorNotification]; eval_handler.
  - destruct (mapViewController (state w)); reflexivity.
  - reflexivity.
Qed.

(** C2 as stated fails: a route status outside the five listed codes is
    answered with an error notification as well. *)
Lemma route_status_failures_not_closed :
  showsErrorNotification Example hooks0 initialState (OTHER "WAYPOINT_ERROR") = true /\
  showsErrorNotification Unnamed hooks0 initialState (OTHER "WAYPOINT_ERROR") = true /\
  ~ In (OTHER "WAYPOINT_ERROR") failureCodes.
Proof.
  split; [reflexivity |]. split; [reflexivity |].
  simpl; intuition discriminate.
Qed.

(** What the blur listener does, whatever fails. *)
Lemma blur_trace (sc : Screen) (h : Hooks) (fails : Oracle) (w : World) :
  snd (step sc h fails w Blur) =
  {| state := {| overlayType := overlayType (state w);
                 mapViewController := mapViewController (state w);
                 navigationViewController := navigationViewController (state w);
                 navigationInitialized := navigationInitialized (state w);
                 displayMap := false;
                 margin := margin (state w) |};
     trace := trace w ++
              cleanUpCalls h (state w) (clearDestinationsFailed h fails w) |}.
Proof.
  unfold clearDestinationsFailed, cleanUpCalls.
  destruct sc; eval_handler;
    destruct (mapViewController (state w)) as [mvc |]; eval_handler;
    rewrite ?app_nil_r;
    match goal with
    | |- context [if ?b then _ else _] => destruct b
    end; eval_handler;
    repeat match goal with
           | |- context [if ?b then _ else _] => destruct b
           end; eval_handler; reflexivity.
Qed.

(** C5, as amended. On every blur the display flag becomes false (the other
    state cells keep their values) and the cleanup routine runs once: it
    clears the map view when the map view controller handle is non-null and
    skips that step when it is null, then clears the navigation destinations
    (exactly one such call), then, unless clearing the destinations failed,
    tears down the navigation controller, in that order. *)
Theorem blur_hides_map_and_cleans_up
  (sc : Screen) (h : Hooks) (fails : Oracle) (w : World) :
  let w' := snd (step sc h fails w Blur) in
  displayMap (state w') = false /\
  emitted w w' =
    (match mapViewController (state w) with
     | Some mvc => [Sdk (MapCall mvc clearMapView)]
     | None => []
     end ++
     [Sdk (NavCall (navigationController h) clearDestinations)] ++
     (if clearDestinationsFailed h fails w then []
      else [Sdk (NavCall (navigationController h) cleanup)]))%list /\
  List.length (filter isClearDestinations (sdkCalls (emitted w w'))) = 1%nat.
Proof.
  cbv zeta; rewrite blur_trace; cbn [state displayMap]; rewrite emitted_app.
  unfold cleanUpCalls.
  repeat split;
    destruct (mapViewController (state w)), (clearDestinationsFailed h fails w);
    reflexivity.
Qed.

(** C5 as stated fails: blurred before the map view controller exists, the
    screen clears no map view. *)
Lemma blur_without_map_view_controller :
  sdkCalls (trace (snd (step Example hooks0 neverFails mount Blur))) =
    [NavCall 0%nat clearDestinations; NavCall 0%nat cleanup] /\
  sdkCalls (trace (snd (step Unnamed hooks0 neverFails mount Blur))) =
    [NavCall 0%nat clearDestinations; NavCall 0%nat cleanup].
Proof. split; reflexivity. Qed.

(** The listener effect of either screen: it registers the table and hands
    back a cleanup that deregisters the table it closed over. *)
Lemma listenersEffect_run (sc : Screen) (t : NavigationCallbacks)
  (fails : Oracle) (w : World) :
  listenersEffect sc t fails w =
  (Returned (callSdk (removeListeners t)),
   {| state := state w; trace := trace w ++ [Sdk (addListeners t)] |}).
Proof. destruct sc; reflexivity. Qed.

(** Over the life of the component the registrations and deregistrations
    come in pairs on the same table. *)
Lemma effectLifecycle_trace (sc : Screen) (tables : list NavigationCallbacks) :
  forall (pending : M unit) (owed : list Effect) (fails : Oracle) (w : World),
    (forall fails' w', pending fails' w' =
       (Returned tt, {| state := state w'; trace := trace w' ++ owed |})) ->
    effectLifecycle (listenersEffect sc) pending tables fails w =
    (Returned tt,
     {| state := state w;
        trace := trace w ++ owed ++
                 flat_map (fun t => [Sdk (addListeners t); Sdk (removeListeners t)])
                          tables |}).
Proof.
  induction tables as [| t rest IH]; intros pending owed fails w Hp; simpl.
  - rewrite Hp, app_nil_r; reflexivity.
  - unfold bind at 1; rewrite Hp.
    unfold bind at 1; rewrite listenersEffect_run.
    rewrite (IH (callSdk (removeListeners t)) [Sdk (removeListeners t)]).
    + cbn [state trace]; rewrite <- !app_assoc; reflexivity.
    + intros fails' w'; reflexivity.
Qed.

(** C8. The effect registers the navigationCallbacks table with
    addListeners and returns a cleanup that calls removeListeners with that
    same table; so over the life of the component, whenever the table's
    identity changes and at unmount, every registration is followed by the
    deregistration of the identical table. *)
Theorem listeners_registered_and_removed_alike
  (sc : Screen) (fails : Oracle) (w : World)
  (navigationCallbacks : NavigationCallbacks)
  (tables : list NavigationCallbacks) :
  (exists cleanUp : M unit,
     listenersEffect sc navigationCallbacks fails w =
       (Returned cleanUp,
        {| state := state w;
           trace := trace w ++ [Sdk (addListeners navigationCallbacks)] |}) /\
     forall fails' w',
       cleanUp fails' w' =
       (Returned tt,
        {| state := state w';
           trace := trace w' ++ [Sdk (removeListeners navigationCallbacks)] |})) /\
  effectLifecycle (listenersEffect sc) (ret tt) tables fails w =
    (Returned tt,
     {| state := state w;
        trace := trace w ++
                 flat_map (fun t => [Sdk (addListeners t); Sdk (removeListeners t)])
                          tables |}).
Proof.
  split.
  - exists (callSdk (removeListeners navigationCallbacks)); split.
    + apply listenersEffect_run.
    + intros fails' w'; reflexivity.
  - rewrite (effectLifecycle_trace sc tables (ret tt) []).
    + reflexivity.
    + intros fails' [s t]; cbn; rewrite app_nil_r; reflexivity.
Qed.

(** The navigation-controls overlay is part of the view only under its
    three conditions. *)
Lemma navControlsOverlayRendered_conditions (sc : Screen) (h : Hooks) (s : State) :
  navControlsOverlayRendered sc h s = true ->
  notNull (navigationViewController s) = true /\
  notNull (Some (navigationController h)) = true /\
  navigationInitialized s = true.
Proof.
  destruct sc; cbn; autounfold with handlers; intros H;
    apply andb_true_iff in H as [_ H];
    apply andb_true_iff in H as [H H3];
    apply andb_true_iff in H as [H1 H2]; auto.
Qed.

Lemma navControlsOverlay_needs_initialized (sc : Screen) (h : Hooks) (s : State) :
  navigationInitialized s = false ->
  navControlsOverlayRendered sc h s = false /\
  navControlsOverlayVisible sc h s = false /\
  navigationButtonDisabled sc s = true.
Proof.
  intros H; destruct sc; cbn; autounfold with handlers; rewrite H;
    rewrite ?andb_false_r; auto.
Qed.

(** C10. The navigation-controls overlay is rendered only when the
    navigation view controller is non-null, the navigation controller is
    non-null and navigationInitialized is true; the Navigation button is
    disabled exactly when navigationInitialized is false; so from any state
    in which the flag is false (at mount, or once dispose has reset it), as
    long as the navigation-ready callback does not fire, the overlay is not
    rendered and not visible, whatever the overlay state, and the button
    stays disabled; and a dispose handler that returns has reset the flag. *)
Theorem nav_controls_overlay_gated
  (sc : Screen) (h : Hooks) (fails : Oracle) (w : World) (es : list Event) :
  (navControlsOverlayRendered sc h (state w) = true ->
   notNull (navigationViewController (state w)) = true /\
   notNull (Some (navigationController h)) = true /\
   navigationInitialized (state w) = true) /\
  navigationButtonDisabled sc (state w) = negb (navigationInitialized (state w)) /\
  navigationInitialized initialState = false /\
  (navigationInitialized (state w) = false ->
   existsb isNavigationReady es = false ->
   let s' := state (run sc h fails w es) in
   navigationInitialized s' = false /\
   navControlsOverlayRendered sc h s' = false /\
   navControlsOverlayVisible sc h s' = false /\
   navigationButtonDisabled sc s' = true) /\
  (fst (step sc h fails w NavigationDispose) = Returned tt ->
   navigationInitialized (state (snd (step sc h fails w NavigationDispose))) = false).
Proof.
  split; [apply navControlsOverlayRendered_conditions |].
  split; [destruct sc; reflexivity |].
  split; [reflexivity |].
  split.
  - intros Hw Hes; cbv zeta.
    assert (Hs : navigationInitialized (state (run sc h fails w es)) = false).
    { apply (run_respects staysUninitialized staysUninitialized_refl
               staysUninitialized_trans sc h
               (fun e => negb (isNavigationReady e))).
      - intros s e He; apply handle_staysUninitialized.
        apply negb_true_iff; exact He.
      - apply forallb_not_ready; exact Hes.
      - exact Hw. }
    split; [exact Hs | apply navControlsOverlay_needs_initialized; exact Hs].
  - destruct sc; eval_handler;
      destruct (navigationViewController (state w)) as [nvc |]; eval_handler;
      try reflexivity;
      destruct (fails (trace w) (NavViewCall nvc (setNavigationUIEnabled false)));
      cbn; intros H; try reflexivity; discriminate H.
Qed.

Lemma nav_controls_overlay_gated_witness :
  (let s' := state (run Example hooks0 neverFails mount
                        [Focus; NavigationViewControllerCreated 2%nat;
                         ShowNavControlsClick]) in
   navigationInitialized s' = false /\
   navControlsOverlayRendered Example hooks0 s' = false /\
   navControlsOverlayVisible Example hooks0 s' = false /\
   navigationButtonDisabled Example s' = true) /\
  navigationInitialized
    (state (snd (step Unnamed hooks0 neverFails (world readyState) NavigationDispose)))
  = false /\
  (notNull (navigationViewController readyState) = true /\
   notNull (Some (navigationController hooks0)) = true /\
   navigationInitialized readyState = true).
Proof.
  split; [| split].
  - apply (nav_controls_overlay_gated Example hooks0 neverFails mount
             [Focus; NavigationViewControllerCreated 2%nat; ShowNavControlsClick]);
      reflexivity.
  - apply (nav_controls_overlay_gated Unnamed hooks0 neverFails (world readyState) []).
    reflexivity.
  - apply (nav_controls_overlay_gated Example hooks0 neverFails (world readyState) []).
    reflexivity.
Defined.

Lemma state_after_log_and_write (text : string) (f : State -> State)
  (rest : M unit) (fails : Oracle) (w : World) :
  respects sameState rest ->
  state (snd ((consoleLog text ;; modify f ;; rest) fails w)) = f (state w).
Proof.
  intros Hrest; unfold bind, consoleLog, emit, modify; cbn.
  apply (Hrest fails).
Qed.

(** Whatever fails, the navigation-ready handler of either screen writes
    [navigationInitialized] and nothing else. *)
Lemma navigationReady_state (sc : Screen) (h : Hooks) (fails : Oracle) (w : World) :
  state (snd (step sc h fails w NavigationReady)) =
  {| overlayType := overlayType (state w);
     mapViewController := mapViewController (state w);
     navigationViewController := navigationViewController (state w);
     navigationInitialized := true;
     displayMap := displayMap (state w);
     margin := margin (state w) |}.
Proof.
  destruct sc; unfold step, handle;
    [unfold NavigationScreen.handle, NavigationScreen.onNavigationReady
    | unfold Part000.handle, Part000.onNavigationReady];
    cbv zeta; unfold setNavigationInitialized;
    rewrite state_after_log_and_write; try reflexivity;
    respects_handler sameState_refl sameState_trans.
Qed.

Lemma recenter_state (sc : Screen) (h : Hooks) (fails : Oracle) (w : World) :
  state (snd (step sc h fails w RecenterButtonClick)) = state w.
Proof.
  unfold step; generalize (state w) at 1 as s; intros s; revert fails w.
  change (respects sameState (handle sc h s RecenterButtonClick)).
  destruct sc; simpl; respects_handler sameState_refl sameState_trans.
Qed.

Lemma routeCreated_state (sc : Screen) (h : Hooks) (fails : Oracle) (w : World) :
  state (snd (step sc h fails w (RouteStatusResult OK))) = state w.
Proof.
  unfold step; generalize (state w) at 1 as s; intros s; revert fails w.
  change (respects sameState (handle sc h s (RouteStatusResult OK))).
  destruct sc; simpl; respects_handler sameState_refl sameState_trans.
Qed.

(** C3, as amended. On every event the two screens make the same state
    updates, whatever fails; and on every event other than navigation-ready,
    route status OK and the recenter click their handlers do the same thing
    altogether: same outcome, same state, same controller calls,
    notifications and console output in the same order. *)
Theorem screens_agree_outside_three_handlers
  (h : Hooks) (fails : Oracle) (w : World) (e : Event) :
  state (snd (step Example h fails w e)) = state (snd (step Unnamed h fails w e)) /\
  (differing e = false ->
   step Example h fails w e = step Unnamed h fails w e).
Proof.
  assert (Hsame : differing e = false ->
                  step Example h fails w e = step Unnamed h fails w e).
  { destruct e as [ | | | | | | | | | | | | r | | | | | | | | | | | | | | | ];
      try discriminate; try reflexivity.
    destruct r; try discriminate; reflexivity. }
  split; [| exact Hsame].
  destruct (differing e) eqn:Hd; [| rewrite Hsame; reflexivity].
  destruct e as [ | | | | | | | | | | | | r | | | | | | | | | | | | | | | ];
    try discriminate Hd.
  - rewrite !recenter_state; reflexivity.
  - rewrite !navigationReady_state; reflexivity.
  - destruct r; try discriminate Hd.
    rewrite !routeCreated_state; reflexivity.
Qed.

Lemma screens_agree_outside_three_handlers_witness :
  step Example hooks0 cameraFails (world readyState) MapReady =
  step Unnamed hooks0 cameraFails (world readyState) MapReady.
Proof.
  apply (screens_agree_outside_three_handlers hooks0 cameraFails
           (world readyState) MapReady).
  reflexivity.
Defined.

(** C3 as stated fails: when a route is created the first screen moves the
    camera and the second makes no controller call, a difference that is
    neither a coordinate, nor console output, nor the recenter action. *)
Lemma screens_differ_on_route_created :
  sdkCalls (trace (snd (step Example hooks0 neverFails (world readyState)
                             (RouteStatusResult OK)))) =
    [MapCall 1%nat (moveCamera NavigationScreen.startingSpot)] /\
  sdkCalls (trace (snd (step Unnamed hooks0 neverFails (world readyState)
                             (RouteStatusResult OK)))) = [] /\
  ~ alikeUpToCosmetics hooks0 neverFails (world readyState) (RouteStatusResult OK).
Proof.
  split; [reflexivity |]. split; [reflexivity |].
  intros [_ H]; discriminate H.
Qed.

(** ** Failures of SDK calls *)

(** In NavigationScreen.tsx a failing [moveCamera] never leaves
    [moveCameraToStartingSpot]: it is caught and a snackbar is shown. *)
Lemma example_camera_failure_caught (s : State) (fails : Oracle) (w : World) :
  fst (NavigationScreen.moveCameraToStartingSpot s fails w) = Returned tt /\
  forall mvc,
    mapViewController s = Some mvc ->
    fails (trace w ++
           [ConsoleLog "Ryan - moveCameraToStartingSpot";
            ConsoleLog "Ryan - moveCameraToStartingSpot - mapViewController"])%list
          (MapCall mvc (moveCamera NavigationScreen.startingSpot)) = true ->
    snackbars (emitted w (snd (NavigationScreen.moveCameraToStartingSpot s fails w)))
    = ["Error moving camera"].
Proof.
  split.
  - eval_handler; destruct (mapViewController s); eval_handler; [| reflexivity].
    match goal with |- context [if ?b then _ else _] => destruct b end;
      reflexivity.
  - intros mvc Hs Hf; eval_handler; rewrite Hs; eval_handler.
    rewrite Hf; eval_handler.
    rewrite emitted_app; reflexivity.
Qed.

(** In both screens a failing [init] never leaves [onMapReady]: it is caught
    and a snackbar is shown. *)
Lemma init_failure_caught (sc : Screen) (h : Hooks) (fails : Oracle) (w : World) :
  fst (step sc h fails w MapReady) = Returned tt /\
  (fails (trace w ++ [ConsoleLog "Map is ready, initializing navigator..."])%list
         (NavCall (navigationController h) init) = true ->
   snackbars (emitted w (snd (step sc h fails w MapReady)))
   = ["Error initializing navigator"]).
Proof.
  split.
  - destruct sc; eval_handler;
      match goal with |- context [if ?b then _ else _] => destruct b end;
      eval_handler; try reflexivity;
      destruct (mapViewController (state w)); reflexivity.
  - intros Hf; destruct sc; eval_handler; rewrite Hf; eval_handler;
      rewrite emitted_app; reflexivity.
Qed.

(** In NavigationScreen.tsx a failing [setDestinations] is caught and shown
    as well. *)
Lemma example_destinations_failure_caught :
  fst (step Example hooks0 destinationsFail (world readyState) NavigationReady)
    = Returned tt /\
  snackbars (trace (snd (step Example hooks0 destinationsFail (world readyState)
                              NavigationReady)))
    = ["Error setting destinations"].
Proof. split; reflexivity. Qed.

(** C4. In part_000 a camera-move failure is not caught and not shown: with
    a map view controller present and an SDK whose moveCamera fails, the
    navigation-ready handler ends by throwing that error right after the
    call, having shown no snackbar; and a failing setDestinations, called
    there without await or try, leaves the handler to finish with no
    snackbar either. *)
Theorem part000_failures_not_surfaced :
  step Unnamed hooks0 cameraFails (world readyState) NavigationReady =
    (Threw (SdkError (MapCall 1%nat (moveCamera Part000.startingSpot))),
     {| state := readyState;
        trace := [ConsoleLog "onNavigationReady";
                  Sdk (MapCall 1%nat (moveCamera Part000.startingSpot))] |}) /\
  Part000.moveCameraToStartingSpot readyState cameraFails (world readyState) =
    (Threw (SdkError (MapCall 1%nat (moveCamera Part000.startingSpot))),
     {| state := readyState;
        trace := [Sdk (MapCall 1%nat (moveCamera Part000.startingSpot))] |}) /\
  fst (step Unnamed hooks0 destinationsFail (world readyState) NavigationReady)
    = Returned tt /\
  snackbars (trace (snd (step Unnamed hooks0 destinationsFail (world readyState)
                              NavigationReady))) = [].
Proof. repeat split; reflexivity. Qed.

(** * Further properties of the handlers *)

(** ** [createWayPoints] *)

Lemma createWayPoints_unfold (sc : Screen) (s : State) (p : LatLng) (l : list LatLng) :
  createWayPoints sc s (p :: l) =
  (match mapViewController s with
   | Some mvc => awaitSdk (markerCall mvc p)
   | None => ret tt
   end ;; createWayPoints sc s l).
Proof. destruct sc; reflexivity. Qed.

Lemma createWayPoints_nil (sc : Screen) (s : State) :
  createWayPoints sc s [] = ret tt.
Proof. destruct sc; reflexivity. Qed.

(** X1. Without a map view controller [createWayPoints] does nothing at
    all, however many way points it is given: no SDK call, no effect, no
    write, and it returns. *)
Theorem createWayPoints_without_controller
  (sc : Screen) (s : State) (wayPoints : list LatLng) (fails : Oracle) (w : World) :
  mapViewController s = None ->
  createWayPoints sc s wayPoints fails w = (Returned tt, w).
Proof.
  intros Hs; revert w; induction wayPoints as [| p l IH]; intros w.
  - rewrite createWayPoints_nil; reflexivity.
  - rewrite createWayPoints_unfold, Hs; unfold bind, ret; apply IH.
Qed.

Lemma createWayPoints_without_controller_witness :
  createWayPoints Example initialState NavigationScreen.wayPoints alwaysFails mount
  = (Returned tt, mount).
Proof.
  apply (createWayPoints_without_controller Example initialState
           NavigationScreen.wayPoints alwaysFails mount).
  reflexivity.
Defined.



(** ** Which cell a handler writes *)

Lemma sameOutside_refl (c : option Cell) (s : State) : sameOutside c s s.
Proof. repeat split; reflexivity. Qed.

Lemma sameOutside_trans (c : option Cell) (s1 s2 s3 : State) :
  sameOutside c s1 s2 -> sameOutside c s2 s3 -> sameOutside c s1 s3.
Proof.
  intros (a1 & a2 & a3 & a4 & a5 & a6) (b1 & b2 & b3 & b4 & b5 & b6).
  repeat split; intros Hc.
  - rewrite (b1 Hc); exact (a1 Hc).
  - rewrite (b2 Hc); exact (a2 Hc).
  - rewrite (b3 Hc); exact (a3 Hc).
  - rewrite (b4 Hc); exact (a4 Hc).
  - rewrite (b5 Hc); exact (a5 Hc).
  - rewrite (b6 Hc); exact (a6 Hc).
Qed.

Lemma handle_sameOutside (sc : Screen) (h : Hooks) (s : State) (e : Event) :
  respects (sameOutside (writes e)) (handle sc h s e).
Proof.
  destruct sc, e; simpl;
    match goal with
    | |- respects (sameOutside ?c) _ =>
        respects_handler (sameOutside_refl c) (sameOutside_trans c)
    end;
    apply respects_modify; intros ?; repeat split; intros Hc;
    try reflexivity; exfalso; apply Hc; reflexivity.
Qed.

(** X3. Every handler writes at most one state cell, the one its event is
    about, whatever fails and however it ends: focus and blur write
    displayMap only, the controller-created callbacks their handle only,
    navigation-ready and dispose navigationInitialized only, the two buttons
    and closeOverlay the overlay state only, the switch the margin only, and
    every other handler writes nothing. *)
Theorem handlers_write_only_their_cell
  (sc : Screen) (h : Hooks) (fails : Oracle) (w : World) (e : Event) :
  sameOutside (writes e) (state w) (state (snd (step sc h fails w e))).
Proof. unfold step; apply handle_sameOutside. Qed.

(** ** Which handlers can end with an error *)











(** ** Where a handler stops when it throws *)













(** ** What a handler may emit *)

Section EmitsOnly.
Variable P : Effect -> Prop.

Lemma emitsOnly_ret {A} (a : A) : emitsOnly P (ret a).
Proof. intros fails w; exists []; rewrite app_nil_r; auto. Qed.

Lemma emitsOnly_modify (f : State -> State) : emitsOnly P (modify f).
Proof. intros fails w; exists []; cbn; rewrite app_nil_r; auto. Qed.

Lemma emitsOnly_emit (e : Effect) : P e -> emitsOnly P (emit e).
Proof. intros He fails w; exists [e]; cbn; auto. Qed.

Lemma emitsOnly_awaitSdk (c : SdkCall) : P (Sdk c) -> emitsOnly P (awaitSdk c).
Proof.
  intros Hc fails w; exists [Sdk c]; unfold awaitSdk.
  destruct (fails (trace w) c); cbn; auto.
Qed.

Lemma emitsOnly_bind {A B} (m : M A) (k : A -> M B) :
  emitsOnly P m -> (forall a, emitsOnly P (k a)) -> emitsOnly P (bind m k).
Proof.
  intros Hm Hk fails w; unfold bind.
  destruct (Hm fails w) as [l1 [H1 F1]].
  destruct (m fails w) as [[a | x] w1]; cbn in *.
  - destruct (Hk a fails w1) as [l2 [H2 F2]].
    exists (l1 ++ l2)%list; split.
    + rewrite H2, H1, app_assoc; reflexivity.
    + apply Forall_app; auto.
  - exists l1; auto.
Qed.

Lemma emitsOnly_tryCatch {A} (body : M A) (handler : Exn -> M A) :
  emitsOnly P body -> (forall x, emitsOnly P (handler x)) ->
  emitsOnly P (tryCatch body handler).
Proof.
  intros Hb Hh fails w; unfold tryCatch.
  destruct (Hb fails w) as [l1 [H1 F1]].
  destruct (body fails w) as [[a | x] w1]; cbn in *.
  - exists l1; auto.
  - destruct (Hh x fails w1) as [l2 [H2 F2]].
    exists (l1 ++ l2)%list; split.
    + rewrite H2, H1, app_assoc; reflexivity.
    + apply Forall_app; auto.
Qed.

Lemma emitsOnly_notAwaited (m : M unit) :
  emitsOnly P m -> emitsOnly P (notAwaited m).
Proof.
  intros Hm fails w; unfold notAwaited.
  destruct (Hm fails w) as [l [H F]].
  destruct (m fails w) as [r w1]; exists l; auto.
Qed.

Lemma emitsOnly_createWayPoints (sc : Screen) (s : State) (l : list LatLng) :
  (forall mvc p, mapViewController s = Some mvc -> P (Sdk (markerCall mvc p))) ->
  emitsOnly P (createWayPoints sc s l).
Proof.
  intros HP; induction l as [| p l IH].
  - rewrite createWayPoints_nil; apply emitsOnly_ret.
  - rewrite createWayPoints_unfold.
    apply emitsOnly_bind; [| intros _; exact IH].
    destruct (mapViewController s) as [mvc |] eqn:Hs;
      [apply emitsOnly_awaitSdk; apply HP; reflexivity | apply emitsOnly_ret].
Qed.

End EmitsOnly.

Ltac emitsOnly_step :=
  match goal with
  | |- emitsOnly _ (bind _ _) => apply emitsOnly_bind; [| intros ?]
  | |- emitsOnly _ (tryCatch _ _) => apply emitsOnly_tryCatch; [| intros ?]
  | |- emitsOnly _ (notAwaited _) => apply emitsOnly_notAwaited
  | |- emitsOnly _ (ret _) => apply emitsOnly_ret
  | |- emitsOnly _ (modify _) => apply emitsOnly_modify
  | |- emitsOnly _ (emit _) => apply emitsOnly_emit
  | |- emitsOnly _ (awaitSdk _) => apply emitsOnly_awaitSdk
  | |- emitsOnly _ (NavigationScreen.createWayPoints ?s ?l) =>
      apply (emitsOnly_createWayPoints _ Example s l); intros ? ? ?
  | |- emitsOnly _ (Part000.createWayPoints ?s ?l) =>
      apply (emitsOnly_createWayPoints _ Unnamed s l); intros ? ? ?
  | |- emitsOnly _ (match ?x with _ => _ end) => destruct x eqn:?
  | |- emitsOnly _ ?m => let f := head_of m in progress unfold f
  end.



(** ** Navigation ready *)

Lemma emitted_of_trace (w w' : World) (l : list Effect) :
  trace w' = (trace w ++ l)%list -> emitted w w' = l.
Proof.
  intros H; unfold emitted; rewrite H; clear H.
  generalize (trace w) as t; induction t as [| x t IH]; simpl; auto.
Qed.

Lemma sdkCalls_app (l1 l2 : list Effect) :
  sdkCalls (l1 ++ l2) = (sdkCalls l1 ++ sdkCalls l2)%list.
Proof. unfold sdkCalls; apply flat_map_app. Qed.

Lemma markers_are_not_setDestinations (l : list Effect) :
  Forall isAddMarker l -> filter isSetDestinations (sdkCalls l) = [].
Proof.
  induction 1 as [| e l He Hl IH]; [reflexivity |].
  destruct e as [| | | [c m | | | |]]; try contradiction.
  destruct m; try contradiction; exact IH.
Qed.

Lemma createWayPoints_emits_markers (sc : Screen) (s : State) (l : list LatLng) :
  emitsOnly isAddMarker (createWayPoints sc s l).
Proof. apply emitsOnly_createWayPoints; intros; exact I. Qed.

#[local] Arguments NavigationScreen.createWayPoints : simpl never.
#[local] Arguments Part000.createWayPoints : simpl never.

Lemma createWayPoints_throws_marker (sc : Screen) (s : State) (l : list LatLng)
  (fails : Oracle) (w : World) (x : Exn) :
  fst (createWayPoints sc s l fails w) = Threw x ->
  exists mvc p, x = SdkError (markerCall mvc p).
Proof.
  revert w; induction l as [| p l IH]; intros w.
  - rewrite createWayPoints_nil; intros H; discriminate H.
  - rewrite createWayPoints_unfold; unfold bind.
    destruct (mapViewController s) as [mvc |].
    + unfold awaitSdk; destruct (fails (trace w) (markerCall mvc p)); cbn.
      * intros H; exists mvc, p; congruence.
      * apply IH.
    + cbn; apply IH.
Qed.

(** Evaluates a handler up to its oracle tests, case by case. *)
Ltac eval_cases fails :=
  eval_handler;
  repeat match goal with
         | |- context [if fails ?t ?c then _ else _] =>
             destruct (fails t c) eqn:?; eval_handler
         end.

(** X7. In NavigationScreen.tsx the navigation-ready handler calls
    setDestinations exactly once, with one destination per way point, in
    order and at the way point's position, and with the routing options,
    whatever fails before it: a failed camera move does not stop it.  The
    only error the handler can end with is that of an addMarker call. *)
Theorem example_navigation_ready_always_sets_destinations
  (h : Hooks) (fails : Oracle) (w : World) :
  let r := step Example h fails w NavigationReady in
  filter isSetDestinations (sdkCalls (emitted w (snd r))) =
    [NavCall (navigationController h)
       (setDestinations (map (fun p => {| position := p |}) NavigationScreen.wayPoints)
                        (Some NavigationScreen.routingOptions))] /\
  (forall x, fst r = Threw x -> exists mvc p, x = SdkError (markerCall mvc p)).
Proof.
  cbv zeta; unfold step, handle, NavigationScreen.handle.
  destruct (mapViewController (state w)) as [mvc |] eqn:Hs;
    eval_handler; rewrite Hs; eval_cases fails;
    match goal with
    | |- context [NavigationScreen.createWayPoints ?s ?l ?f ?W] =>
        destruct (createWayPoints_emits_markers Example s l f W) as [lm [Ht Hm]];
        pose proof (createWayPoints_throws_marker Example s l f W) as Hx;
        cbn [createWayPoints] in Ht, Hx;
        destruct (NavigationScreen.createWayPoints s l f W) as [r3 w3]
    end;
    cbn [fst snd state trace] in *;
    (split; [| exact Hx]);
    (erewrite emitted_of_trace
       by (rewrite Ht; rewrite <- ?app_assoc; reflexivity));
    rewrite !sdkCalls_app, !filter_app, (markers_are_not_setDestinations lm Hm);
    reflexivity.
Qed.

Lemma example_navigation_ready_always_sets_destinations_witness :
  exists mvc p,
    SdkError (MapCall 1%nat
                (addMarker {| markerPosition := {| lat := 32.78889; lng := -96.906553 |};
                              visible := true |}))
    = SdkError (markerCall mvc p).
Proof.
  apply (proj2 (example_navigation_ready_always_sets_destinations hooks0
                  alwaysFails (world readyState))).
  reflexivity.
Defined.

(** X8. In part_000 the navigation-ready handler sets the destinations
    (one per way point, in order, without routing options) exactly once when
    the camera move did not fail, and not at all when it failed: a failed
    camera move ends the handler right there with that error, after the flag
    navigationInitialized has been set, with no destination, no marker and
    no route overview. *)
Theorem part000_navigation_ready_stops_at_camera_failure
  (h : Hooks) (fails : Oracle) (w : World) :
  let r := step Unnamed h fails w NavigationReady in
  filter isSetDestinations (sdkCalls (emitted w (snd r))) =
    (if part000CameraFailed fails w then []
     else [NavCall (navigationController h)
             (setDestinations (map (fun p => {| position := p |}) Part000.wayPoints)
                              None)]) /\
  (part000CameraFailed fails w = true ->
   exists mvc,
     mapViewController (state w) = Some mvc /\
     r = (Threw (SdkError (MapCall mvc (moveCamera Part000.startingSpot))),
          {| state := {| overlayType := overlayType (state w);
                         mapViewController := mapViewController (state w);
                         navigationViewController := navigationViewController (state w);
                         navigationInitialized := true;
                         displayMap := displayMap (state w);
                         margin := margin (state w) |};
             trace := trace w ++
                      [ConsoleLog "onNavigationReady";
                       Sdk (MapCall mvc (moveCamera Part000.startingSpot))] |})).
Proof.
  cbv zeta; unfold step, handle, Part000.handle, part000CameraFailed.
  destruct (mapViewController (state w)) as [mvc |] eqn:Hs;
    eval_handler; rewrite Hs; eval_handler;
    [destruct (fails (trace w ++ [ConsoleLog "onNavigationReady"])%list
                     (MapCall mvc (moveCamera Part000.startingSpot))) eqn:Hcam;
     eval_handler |].
  - split; [rewrite emitted_app; reflexivity |].
    intros _; exists mvc; split; reflexivity.
  - split; [| intros H; discriminate H].
    match goal with
    | |- context [Part000.createWayPoints ?s ?l ?f ?W] =>
        destruct (createWayPoints_emits_markers Unnamed s l f W) as [lm [Ht Hm]];
        cbn [createWayPoints] in Ht;
        destruct (Part000.createWayPoints s l f W) as [[[] | x] w3]
    end;
      cbn [fst snd state trace] in *;
      try (destruct (navigationViewController (state w)) as [nvc |];
           eval_cases fails);
      (erewrite emitted_of_trace
         by (cbn [trace]; rewrite Ht; rewrite <- ?app_assoc; reflexivity));
      rewrite !sdkCalls_app, !filter_app, (markers_are_not_setDestinations lm Hm);
      reflexivity.
  - split; [| intros H; discriminate H].
    match goal with
    | |- context [Part000.createWayPoints ?s ?l ?f ?W] =>
        destruct (createWayPoints_emits_markers Unnamed s l f W) as [lm [Ht Hm]];
        cbn [createWayPoints] in Ht;
        destruct (Part000.createWayPoints s l f W) as [[[] | x] w3]
    end;
      cbn [fst snd state trace] in *;
      try (destruct (navigationViewController (state w)) as [nvc |];
           eval_cases fails);
      (erewrite emitted_of_trace
         by (cbn [trace]; rewrite Ht; rewrite <- ?app_assoc; reflexivity));
      rewrite !sdkCalls_app, !filter_app, (markers_are_not_setDestinations lm Hm);
      reflexivity.
Qed.

Lemma part000_navigation_ready_stops_at_camera_failure_witness :
  exists mvc,
    mapViewController (state (world readyState)) = Some mvc /\
    step Unnamed hooks0 cameraFails (world readyState) NavigationReady =
      (Threw (SdkError (MapCall mvc (moveCamera Part000.startingSpot))),
       {| state := {| overlayType := overlayType (state (world readyState));
                      mapViewController := mapViewController (state (world readyState));
                      navigationViewController :=
                        navigationViewController (state (world readyState));
                      navigationInitialized := true;
                      displayMap := displayMap (state (world readyState));
                      margin := margin (state (world readyState)) |};
          trace := trace (world readyState) ++
                   [ConsoleLog "onNavigationReady";
                    Sdk (MapCall mvc (moveCamera Part000.startingSpot))] |}).
Proof.
  apply (part000_navigation_ready_stops_at_camera_failure hooks0 cameraFails
           (world readyState)).
  reflexivity.
Defined.

(** ** Dispose, map ready and recenter *)

(** X9. The dispose handler first disables the navigation UI on the
    navigation view controller, when there is one, and resets
    navigationInitialized only after that call succeeded: when the call
    fails the handler throws its error and leaves the whole state, the flag
    included, as it was; with a null handle it makes no call and resets the
    flag. *)
Theorem dispose_resets_flag_only_after_success
  (sc : Screen) (h : Hooks) (fails : Oracle) (w : World) :
  let r := step sc h fails w NavigationDispose in
  match navigationViewController (state w) with
  | None =>
      fst r = Returned tt /\
      emitted w (snd r) = [] /\
      navigationInitialized (state (snd r)) = false
  | Some nvc =>
      emitted w (snd r) = [Sdk (NavViewCall nvc (setNavigationUIEnabled false))] /\
      if fails (trace w) (NavViewCall nvc (setNavigationUIEnabled false))
      then fst r = Threw (SdkError (NavViewCall nvc (setNavigationUIEnabled false))) /\
           state (snd r) = state w
      else fst r = Returned tt /\
           navigationInitialized (state (snd r)) = false
  end.
Proof.
  cbv zeta; unfold step.
  destruct (navigationViewController (state w)) as [nvc |] eqn:Hs;
    destruct sc; eval_handler; rewrite Hs; eval_handler.
  1, 2: destruct (fails (trace w) (NavViewCall nvc (setNavigationUIEnabled false)));
    eval_handler; rewrite emitted_app; repeat split; reflexivity.
  all: repeat split; try reflexivity;
    apply emitted_of_trace; cbn; rewrite app_nil_r; reflexivity.
Qed.


(** X11. The recenter button of NavigationScreen.tsx moves the camera to
    the starting spot whenever there is a map view controller, never throws,
    and shows 'Error moving camera' exactly when that move failed; the
    recenter button of part_000 only writes a console line: no SDK call, no
    snackbar, whatever the state. *)
Theorem recenter_moves_camera_in_example_only
  (h : Hooks) (fails : Oracle) (w : World) :
  (let r := step Example h fails w RecenterButtonClick in
   fst r = Returned tt /\
   state (snd r) = state w /\
   match mapViewController (state w) with
   | Some mvc =>
       sdkCalls (emitted w (snd r)) =
         [MapCall mvc (moveCamera NavigationScreen.startingSpot)] /\
       snackbars (emitted w (snd r)) =
         (if fails (trace w ++
                    [ConsoleLog "onRecenterButtonClick";
                     ConsoleLog "Ryan - moveCameraToStartingSpot";
                     ConsoleLog "Ryan - moveCameraToStartingSpot - mapViewController"])%list
                   (MapCall mvc (moveCamera NavigationScreen.startingSpot))
          then ["Error moving camera"] else [])
   | None =>
       sdkCalls (emitted w (snd r)) = [] /\ snackbars (emitted w (snd r)) = []
   end) /\
  step Unnamed h fails w RecenterButtonClick =
    (Returned tt,
     {| state := state w; trace := trace w ++ [ConsoleLog "onRecenterButtonClick"] |}).
Proof.
  split; [| reflexivity].
  cbv zeta; unfold step.
  destruct (mapViewController (state w)) as [mvc |] eqn:Hs;
    eval_handler; rewrite Hs; eval_cases fails;
    rewrite emitted_app; repeat split; reflexivity.
Qed.

(** ** Notifications *)

Lemma no_snackbars (l : list Effect) : Forall notSnackbar l -> snackbars l = [].
Proof.
  induction 1 as [| e l He Hl IH]; [reflexivity |].
  destruct e; try contradiction; exact IH.
Qed.

Lemma handle_notSnackbar (sc : Screen) (h : Hooks) (s : State) (e : Event) :
  notifies sc e = false -> emitsOnly notSnackbar (handle sc h s e).
Proof.
  intros He; destruct sc, e; try discriminate He; simpl;
    repeat emitsOnly_step; exact I.
Qed.

(** X12. A snackbar can only come from the handlers of route-changed,
    arrival, init-error, traffic-updated, route-status, start-guidance and
    map-ready, and, in NavigationScreen.tsx only, navigation-ready and
    recenter.  On every other event the screen shows no snackbar whatever
    the SDK does: in particular the blur listener and dispose fail
    silently, and part_000 shows nothing on navigation-ready even when the
    camera move or the markers fail. *)
Theorem snackbars_only_from_notifying_handlers
  (sc : Screen) (h : Hooks) (fails : Oracle) (w : World) (e : Event) :
  notifies sc e = false ->
  snackbars (emitted w (snd (step sc h fails w e))) = [].
Proof.
  intros He; unfold step.
  destruct (handle_notSnackbar sc h (state w) e He fails w) as [l [Ht Hl]].
  rewrite (emitted_of_trace _ _ _ Ht); apply no_snackbars; exact Hl.
Qed.

Lemma snackbars_only_from_notifying_handlers_witness :
  snackbars (emitted (world readyState)
               (snd (step Unnamed hooks0 alwaysFails (world readyState)
                          NavigationReady))) = [] /\
  snackbars (emitted (world readyState)
               (snd (step Example hooks0 alwaysFails (world readyState) Blur))) = [].
Proof.
  split.
  - apply (snackbars_only_from_notifying_handlers Unnamed hooks0 alwaysFails
             (world readyState) NavigationReady).
    reflexivity.
  - apply (snackbars_only_from_notifying_handlers Example hooks0 alwaysFails
             (world readyState) Blur).
    reflexivity.
Defined.

(** ** The flags over a run *)

Lemma staysInitialized_refl (s : State) : staysInitialized s s.
Proof. unfold staysInitialized; auto. Qed.

Lemma staysInitialized_trans (s1 s2 s3 : State) :
  staysInitialized s1 s2 -> staysInitialized s2 s3 -> staysInitialized s1 s3.
Proof. unfold staysInitialized; auto. Qed.

Lemma handle_staysInitialized (sc : Screen) (h : Hooks) (s : State) (e : Event) :
  isNavigationDispose e = false ->
  respects staysInitialized (handle sc h s e).
Proof.
  intros He; destruct sc, e; try discriminate He; simpl;
    respects_handler staysInitialized_refl staysInitialized_trans;
    apply respects_modify; intros ?; unfold staysInitialized; simpl; auto.
Qed.

Lemma forallb_not_dispose (es : list Event) :
  existsb isNavigationDispose es = false ->
  forallb (fun e => negb (isNavigationDispose e)) es = true.
Proof.
  induction es as [| e es IH]; simpl; auto.
  intros H; apply orb_false_iff in H as [He Hes].
  rewrite He, IH; auto.
Qed.

(** X13. The navigation-ready handler sets navigationInitialized before
    its first SDK call, so the flag is set and the Navigation button enabled
    after it even when the handler ends with an error; and once set, the
    flag stays set over every sequence of events without a dispose: a blur,
    which tears the navigation controller down, does not reset it. *)
Theorem navigation_stays_initialized_until_dispose
  (sc : Screen) (h : Hooks) (fails : Oracle) (w : World) (es : list Event) :
  (let s' := state (snd (step sc h fails w NavigationReady)) in
   navigationInitialized s' = true /\ navigationButtonDisabled sc s' = false) /\
  (navigationInitialized (state w) = true ->
   existsb isNavigationDispose es = false ->
   let s' := state (run sc h fails w es) in
   navigationInitialized s' = true /\ navigationButtonDisabled sc s' = false).
Proof.
  split.
  - cbv zeta; rewrite navigationReady_state; destruct sc; split; reflexivity.
  - intros Hw Hes; cbv zeta.
    assert (Hs : navigationInitialized (state (run sc h fails w es)) = true).
    { apply (run_respects staysInitialized staysInitialized_refl
               staysInitialized_trans sc h
               (fun e => negb (isNavigationDispose e))).
      - intros s e He; apply handle_staysInitialized.
        apply negb_true_iff; exact He.
      - apply forallb_not_dispose; exact Hes.
      - exact Hw. }
    split; [exact Hs |].
    destruct sc; cbn; autounfold with handlers; rewrite Hs; reflexivity.
Qed.

Lemma navigation_stays_initialized_until_dispose_witness :
  let s' := state (run Unnamed hooks0 alwaysFails (world readyState)
                       [Blur; Focus; ShowNavControlsClick]) in
  navigationInitialized s' = true /\ navigationButtonDisabled Unnamed s' = false.
Proof.
  apply (navigation_stays_initialized_until_dispose Unnamed hooks0 alwaysFails
           (world readyState) [Blur; Focus; ShowNavControlsClick]);
    reflexivity.
Defined.

Lemma staysHidden_refl (s : State) : staysHidden s s.
Proof. unfold staysHidden; auto. Qed.

Lemma staysHidden_trans (s1 s2 s3 : State) :
  staysHidden s1 s2 -> staysHidden s2 s3 -> staysHidden s1 s3.
Proof. unfold staysHidden; auto. Qed.

Lemma handle_staysHidden (sc : Screen) (h : Hooks) (s : State) (e : Event) :
  isFocus e = false ->
  respects staysHidden (handle sc h s e).
Proof.
  intros He; destruct sc, e; try discriminate He; simpl;
    respects_handler staysHidden_refl staysHidden_trans;
    apply respects_modify; intros ?; unfold staysHidden; simpl; auto.
Qed.

Lemma forallb_not_focus (es : list Event) :
  existsb isFocus es = false ->
  forallb (fun e => negb (isFocus e)) es = true.
Proof.
  induction es as [| e es IH]; simpl; auto.
  intros H; apply orb_false_iff in H as [He Hes].
  rewrite He, IH; auto.
Qed.

Lemma nothing_rendered_when_hidden (sc : Screen) (h : Hooks) (s : State) :
  arePermissionsApproved h && displayMap s = false ->
  rendersView sc h s = false /\
  navControlsOverlayRendered sc h s = false /\
  mapControlsOverlayRendered sc h s = false /\
  visibleOverlays sc h s = [].
Proof.
  intros H; unfold visibleOverlays;
    destruct sc; cbn; autounfold with handlers; rewrite H; auto.
Qed.

(** X14. The screen renders its view, and with it any overlay, only while
    the permissions are approved and displayMap is set; displayMap is set by
    focus alone.  So from mount, and from any blurred state, nothing is
    rendered and no overlay is visible until a focus event arrives, whatever
    else happens in between; and without approved permissions nothing is
    ever rendered. *)
Theorem nothing_rendered_until_focus
  (sc : Screen) (h : Hooks) (fails : Oracle) (w : World) (es : list Event) :
  displayMap initialState = false /\
  displayMap (state (snd (step sc h fails w Focus))) = true /\
  (displayMap (state w) = false ->
   existsb isFocus es = false ->
   let s' := state (run sc h fails w es) in
   rendersView sc h s' = false /\
   navControlsOverlayRendered sc h s' = false /\
   mapControlsOverlayRendered sc h s' = false /\
   visibleOverlays sc h s' = []) /\
  (arePermissionsApproved h = false ->
   let s' := state (run sc h fails w es) in
   rendersView sc h s' = false /\
   navControlsOverlayRendered sc h s' = false /\
   mapControlsOverlayRendered sc h s' = false /\
   visibleOverlays sc h s' = []).
Proof.
  split; [reflexivity |].
  split; [destruct sc; reflexivity |].
  split.
  - intros Hw Hes; cbv zeta.
    apply nothing_rendered_when_hidden.
    assert (Hs : displayMap (state (run sc h fails w es)) = false).
    { apply (run_respects staysHidden staysHidden_refl staysHidden_trans sc h
               (fun e => negb (isFocus e))).
      - intros s e He; apply handle_staysHidden.
        apply negb_true_iff; exact He.
      - apply forallb_not_focus; exact Hes.
      - exact Hw. }
    rewrite Hs; apply andb_false_r.
  - intros Hp; cbv zeta.
    apply nothing_rendered_when_hidden; rewrite Hp; reflexivity.
Qed.

Lemma nothing_rendered_until_focus_witness :
  (let s' := state (run Example hooks0 neverFails mount
                        [MapViewControllerCreated 1%nat; ShowMapsControlsClick;
                         NavigationReady]) in
   rendersView Example hooks0 s' = false /\
   navControlsOverlayRendered Example hooks0 s' = false /\
   mapControlsOverlayRendered Example hooks0 s' = false /\
   visibleOverlays Example hooks0 s' = []) /\
  (let s' := state (run Unnamed
                        {| arePermissionsApproved := false;
                           navigationController := 0%nat |}
                        neverFails (world readyState) [Focus; ShowMapsControlsClick]) in
   rendersView Unnamed {| arePermissionsApproved := false;
                          navigationController := 0%nat |} s' = false /\
   navControlsOverlayRendered Unnamed {| arePermissionsApproved := false;
                                         navigationController := 0%nat |} s' = false /\
   mapControlsOverlayRendered Unnamed {| arePermissionsApproved := false;
                                         navigationController := 0%nat |} s' = false /\
   visibleOverlays Unnamed {| arePermissionsApproved := false;
                              navigationController := 0%nat |} s' = []).
Proof.
  split.
  - apply (proj1 (proj2 (proj2
             (nothing_rendered_until_focus Example hooks0 neverFails mount
                [MapViewControllerCreated 1%nat; ShowMapsControlsClick;
                 NavigationReady]))));
      reflexivity.
  - apply (proj2 (proj2 (proj2
             (nothing_rendered_until_focus Unnamed
                {| arePermissionsApproved := false; navigationController := 0%nat |}
                neverFails (world readyState) [Focus; ShowMapsControlsClick])))).
    reflexivity.
Defined.

(** X15. Pressing a button shows its overlay only when that overlay is
    part of the view: after the Maps button the map-controls overlay is the
    one visible overlay exactly when the view is rendered and a map view
    controller exists, and after the Navigation button the
    navigation-controls overlay exactly when the view is rendered, a
    navigation view controller exists and navigation is initialized;
    otherwise no overlay is visible although the overlay state has
    changed. *)
Theorem button_shows_overlay_only_when_rendered
  (sc : Screen) (h : Hooks) (fails : Oracle) (w : World) :
  visibleOverlays sc h (state (snd (step sc h fails w ShowMapsControlsClick))) =
    (if arePermissionsApproved h && displayMap (state w) &&
        notNull (mapViewController (state w))
     then [OverlayType.MapControls] else []) /\
  visibleOverlays sc h (state (snd (step sc h fails w ShowNavControlsClick))) =
    (if arePermissionsApproved h && displayMap (state w) &&
        notNull (navigationViewController (state w)) &&
        navigationInitialized (state w)
     then [OverlayType.NavControls] else []).
Proof.
  unfold visibleOverlays; destruct sc; cbn; autounfold with handlers; cbn;
    rewrite ?andb_false_r, ?andb_true_r; cbn;
    destruct (arePermissionsApproved h), (displayMap (state w)),
      (mapViewController (state w)), (navigationViewController (state w)),
      (navigationInitialized (state w)); split; reflexivity.
Qed.

(** X16. On route status OK both screens show 'Route created' first.
    NavigationScreen.tsx then moves the camera to the starting spot when
    there is a map view controller, and reports a failed move with a second
    snackbar, 'Error moving camera'; part_000 does nothing more.  Neither
    throws nor writes the state. *)
Theorem route_created_recenters_in_example_only
  (h : Hooks) (fails : Oracle) (w : World) :
  (let r := step Example h fails w (RouteStatusResult OK) in
   fst r = Returned tt /\
   state (snd r) = state w /\
   match mapViewController (state w) with
   | Some mvc =>
       sdkCalls (emitted w (snd r)) =
         [MapCall mvc (moveCamera NavigationScreen.startingSpot)] /\
       snackbars (emitted w (snd r)) =
         "Route created" ::
         (if fails (trace w ++
                    [SnackbarShow "Route created" LENGTH_SHORT;
                     ConsoleLog "Ryan - moveCameraToStartingSpot";
                     ConsoleLog "Ryan - moveCameraToStartingSpot - mapViewController"])%list
                   (MapCall mvc (moveCamera NavigationScreen.startingSpot))
          then ["Error moving camera"] else [])
   | None =>
       sdkCalls (emitted w (snd r)) = [] /\
       snackbars (emitted w (snd r)) = ["Route created"]
   end) /\
  step Unnamed h fails w (RouteStatusResult OK) =
    (Returned tt,
     {| state := state w;
        trace := trace w ++ [SnackbarShow "Route created" LENGTH_SHORT] |}).
Proof.
  split; [| reflexivity].
  cbv zeta; unfold step.
  destruct (mapViewController (state w)) as [mvc |] eqn:Hs;
    eval_handler; rewrite Hs; eval_cases fails;
    rewrite emitted_app; repeat split; reflexivity.
Qed.
